(** * Event reconciliation and coalescing engine of the NHL notification app

    Shallow embedding of [src/nhl_notifications_app.py]
    (class [NhlGameNotifications]): the broadcast-delay lookup, the goal-side
    resolver, the coalescing scheduler, the scoreboard fallback, the win
    detector and the two feed callbacks, with the AppDaemon timer table made
    explicit.  Python attributes keep their names. *)

From Stdlib Require Import Ascii String QArith Qround Lqa.
From stdpp Require Import gmap strings list fin_maps pretty.

Set Warnings "-clear-no-such-hyp".

Local Open Scope Z_scope.

(** ** Python floats

    A float is a finite rational (rounding is not modelled) or one of the
    three special values.  Comparison, [min], [max] and [+] follow CPython:
    every comparison with [NaN] is false, [min(a, b)] returns [a] unless
    [b < a], [max(a, b)] returns [a] unless [b > a]. *)

Inductive pyfloat : Type :=
| Fin (q : Q)
| PInf
| NInf
| NaN.

Definition Qlt_bool (a b : Q) : bool := negb (Qle_bool b a).

Definition f_lt (a b : pyfloat) : bool :=
  match a, b with
  | NaN, _ | _, NaN => false
  | NInf, NInf => false
  | NInf, _ => true
  | _, NInf => false
  | PInf, _ => false
  | Fin _, PInf => true
  | Fin x, Fin y => Qlt_bool x y
  end.

Definition py_min (a b : pyfloat) : pyfloat := if f_lt b a then b else a.
Definition py_max (a b : pyfloat) : pyfloat := if f_lt a b then b else a.

Definition f_add (a b : pyfloat) : pyfloat :=
  match a, b with
  | NaN, _ | _, NaN => NaN
  | PInf, NInf | NInf, PInf => NaN
  | PInf, _ | _, PInf => PInf
  | NInf, _ | _, NInf => NInf
  | Fin x, Fin y => Fin (x + y)
  end.

(** ** Python values carried by feed attributes and payload dicts *)

#[warnings="-register-all"]
Inductive pyval : Type :=
| VNone
| VBool (b : bool)
| VInt (z : Z)
| VFloat (f : pyfloat)
| VStr (s : string)
| VList (l : list pyval)
| VDict (d : list (string * pyval)).

(** Truth value of an object ([bool(v)]). *)
Definition truthy (v : pyval) : bool :=
  match v with
  | VNone => false
  | VBool b => b
  | VInt z => negb (z =? 0)
  | VFloat (Fin q) => negb (Qeq_bool q 0)
  | VFloat _ => true
  | VStr s => negb (String.eqb s "")
  | VList l => match l with [] => false | _ => true end
  | VDict d => match d with [] => false | _ => true end
  end.

(** [a or b] *)
Definition py_or (a b : pyval) : pyval := if truthy a then a else b.

(** The outcome of a statement that may raise. *)
Inductive pyres (A : Type) : Type :=
| Ok (a : A)
| Raised.
Arguments Ok {A} a.
Arguments Raised {A}.

(** ASCII lower and upper case ([str.lower], [str.upper] on ASCII text). *)
Definition lower_ascii (c : ascii) : ascii :=
  let n := nat_of_ascii c in
  if (Nat.leb 65 n && Nat.leb n 90)%bool then ascii_of_nat (n + 32) else c.

Definition upper_ascii (c : ascii) : ascii :=
  let n := nat_of_ascii c in
  if (Nat.leb 97 n && Nat.leb n 122)%bool then ascii_of_nat (n - 32) else c.

Fixpoint str_map (f : ascii -> ascii) (s : string) : string :=
  match s with
  | EmptyString => EmptyString
  | String c r => String (f c) (str_map f r)
  end.

Definition lower (s : string) : string := str_map lower_ascii s.
Definition upper (s : string) : string := str_map upper_ascii s.

Definition str_in (s : string) (l : list string) : bool :=
  existsb (String.eqb s) l.

(** [dict.get(k)] on a dict value ([None] when the key is absent). *)
Fixpoint dget (d : list (string * pyval)) (k : string) : pyval :=
  match d with
  | [] => VNone
  | (k', v) :: r => if String.eqb k' k then v else dget r k
  end.

(** [v.get(k)] where [v] is one of the dicts the engine builds. *)
Definition vget (v : pyval) (k : string) : pyval :=
  match v with
  | VDict d => dget d k
  | _ => VNone
  end.

(** [m.get(k)] and [m.get(k, dflt)] on an attribute or payload dict. *)
Definition get (m : gmap string pyval) (k : string) : pyval :=
  default VNone (m !! k).
Definition get_d (m : gmap string pyval) (k : string) (dflt : pyval) : pyval :=
  default dflt (m !! k).

(** [(v or "")] for an attribute that holds a string or nothing. *)
Definition str_or_empty (v : pyval) : string :=
  match v with
  | VStr s => s
  | _ => ""
  end.

(** [(o or dflt)] for an optional string attribute. *)
Definition ostr_or (o : option string) (dflt : string) : string :=
  match o with
  | Some s => if String.eqb s "" then dflt else s
  | None => dflt
  end.

(** ** Identifiers (game ids and event ids are ints or strings) *)

Inductive ident : Type :=
| IdInt (z : Z)
| IdStr (s : string).

#[global] Instance ident_eq_dec : EqDecision ident.
Proof. solve_decision. Defined.

(** Truth value of an optional identifier ([None], [0] and [""] are false). *)
Definition id_true (o : option ident) : bool :=
  match o with
  | Some (IdInt z) => negb (z =? 0)
  | Some (IdStr s) => negb (String.eqb s "")
  | None => false
  end.

(** [str(i)] *)
Definition py_str (i : ident) : string :=
  match i with
  | IdInt z => pretty z
  | IdStr s => s
  end.

Definition id_val (o : option ident) : pyval :=
  match o with
  | Some (IdInt z) => VInt z
  | Some (IdStr s) => VStr s
  | None => VNone
  end.

(** ** Interpreter and helper functions taken as parameters

    Numeral parsing and text formatting belong to the Python runtime; the
    detail matchers and name clean-up are regular-expression helpers of the
    class whose results the engine only passes along. *)

Record Runtime : Type := {
  float_of_str : string -> option pyfloat;   (* float(s); None is ValueError *)
  int_of_str : string -> option Z;           (* int(s); None is ValueError *)
  text_of : pyval -> string;                 (* str(v) inside f-strings *)
  _cleanup_player_display : pyval -> string;
  _parse_scorer_from_last_play : pyval -> string;
  _match_goal_detail :
    pyval -> pyval -> pyval -> pyval -> pyval -> list (string * pyval);
  _match_penalty_detail :
    pyval -> pyval -> pyval -> pyval -> pyval -> pyval -> list (string * pyval);
  NHL_TEAM_ABBREV_TO_FULL_NAME_MAP : string -> option string;  (* nhl_const *)
}.

(** [int(v)]; [None] is [TypeError] or [ValueError]. *)
Definition py_int (rt : Runtime) (v : pyval) : option Z :=
  match v with
  | VInt z => Some z
  | VBool b => Some (if b then 1 else 0)
  | VFloat (Fin q) => Some (if Qle_bool 0 q then Qfloor q else Qceiling q)
  | VStr s => int_of_str rt s
  | _ => None
  end.

(** ** Configuration ([initialize]) *)

Record Config : Type := {
  goal_event_to_fire : string;
  opponent_goal_event_to_fire : option string;
  team_win_event_to_fire : string;
  celebrate_win_only_if_home : bool;
  coalesce_goal_seconds : pyfloat;
  coalesce_penalty_seconds : pyfloat;
  suppress_after_scoreboard_goal_seconds : pyfloat;
  broadcast_delay_input_number : option string;
  broadcast_delay_seconds : pyfloat;
}.

(** ** Broadcast delay ([_get_broadcast_delay]) *)

(** [max(0.0, min(120.0, x))] *)
Definition clamp (x : pyfloat) : pyfloat :=
  py_max (Fin 0) (py_min (Fin 120) x).

Definition placeholder (s : string) : bool :=
  str_in (lower s) ["unknown"; "unavailable"; ""; "none"].

(** The body of the [try] block, given what [self.get_state(entity)] does
    (it raises or returns a value): [Ok (Some d)] is [return d], [Ok None]
    falls out of the block, [Raised] is an exception inside it. *)
Definition try_entity (rt : Runtime) (cfg : Config) (get_state : pyres pyval)
    : pyres (option pyfloat) :=
  match broadcast_delay_input_number cfg with
  | None => Ok None
  | Some ent =>
    if String.eqb ent "" then Ok None else
    match get_state with
    | Raised => Raised
    | Ok val =>
      match val with
      | VBool b => Ok (Some (clamp (Fin (if b then 1 else 0)%Q)))
      | VInt z => Ok (Some (clamp (Fin (inject_Z z))))
      | VFloat f => Ok (Some (clamp f))
      | VStr s =>
        if negb (placeholder s)
        then match float_of_str rt s with
             | Some f => Ok (Some (clamp f))
             | None => Raised
             end
        else Ok None
      | _ => Ok None
      end
    end
  end.

(** [except Exception: pass] swallows whatever the block raised; the last
    line returns the clamped static setting.  The function is total: it has
    no path on which an exception leaves it. *)
Definition _get_broadcast_delay (rt : Runtime) (cfg : Config)
    (get_state : pyres pyval) : pyfloat :=
  match try_entity rt cfg get_state with
  | Ok (Some d) => d
  | Ok None | Raised => clamp (broadcast_delay_seconds cfg)
  end.

(** ** Outbound events

    What the engine hands to the emitter.  [GoalDispatched] stands for one
    run of the goal notification and [_emit_goal_events]; [ge_event] is the
    Home Assistant event fired ([None] for an opponent goal when no opponent
    event is configured).  Rendered texts are left to the templates. *)

Inductive origin : Type :=
| ViaCoalesced (event_id : string)
| ViaScoreboard (score_sig : Z * Z).

Record goal_event : Type := {
  ge_is_my_goal : bool;
  ge_event : option string;
  ge_scorer : string;
  ge_assists : pyval;
  ge_strength : pyval;
  ge_shot_type : pyval;
  ge_period : pyval;
  ge_time_remaining : pyval;
  ge_my_team_score : pyval;
  ge_opp_team_score : pyval;
}.

Record penalty_event : Type := {
  pe_team_abbr : string;
  pe_my_team_abbr : pyval;
  pe_opp_team_abbr : pyval;
  pe_period : pyval;
  pe_time_remaining : pyval;
  pe_player : string;
  pe_penalty_name : pyval;
}.

Record win_event : Type := {
  we_game_id : option ident;
  we_my_team_abbr : string;
  we_opp_team_abbr : string;
  we_my_team_score : Z;
  we_opp_team_score : Z;
  we_is_home : bool;
  we_source : string;
}.

Inductive emission : Type :=
| GoalDispatched (via : origin) (ev : goal_event)
| PenaltyDispatched (event_id : string) (ev : penalty_event)
| WinDispatched (event : string) (ev : win_event)
| PuckDropDispatched (game_id : option ident).

(** ** Timers ([run_in], [cancel_timer], [timer_running]) *)

(** The keyword arguments of a scoreboard fallback timer. *)
Record sb_kwargs : Type := {
  kw_kind : string;
  kw_my_team_full : pyval;
  kw_my_abbr : string;
  kw_my_logo : pyval;
  kw_opp_team_full : pyval;
  kw_opp_abbr : string;
  kw_opp_logo : pyval;
  kw_my_score : Z;
  kw_opp_score : Z;
  kw_period_ord : pyval;
  kw_time_remaining : pyval;
  kw_last_play : pyval;
  kw_game_url : pyval;
  kw_score_sig : Z * Z;
  kw_scoring_feed : pyval;
  kw_goal_detail : list (string * pyval);
  kw_goal_team_abbr : string;
  kw_score_str : string;
}.

(** The callback a timer runs, with the arguments captured when it was
    scheduled. *)
Inductive callback : Type :=
| CoalescedFire (event_id : string) (event_type : string)
| ScoreboardFire (kw : sb_kwargs)
| WinFire (ev : win_event).

(** A live timer: when [run_in] was called, the delay asked for, the
    callback. *)
Record timer : Type := {
  t_at : Q;
  t_delay : pyfloat;
  t_cb : callback;
}.

(** ** Engine state

    The attributes of the app object that the engine reads, the AppDaemon
    timer table ([timers], handles drawn from [next_handle]), the log of
    outbound events ([emitted]) and a ghost counter [resets] of the calls of
    [_clear_pending_events] (not in the source; it delimits sessions). *)

Record State : Type := mkState {
  internal_prev_home_score : Z;
  internal_prev_away_score : Z;
  internal_prev_game_id_for_score_tracking : option ident;
  internal_prev_last_event_id : option string;
  internal_win_fired_game_id : option ident;
  internal_start_fired_game_id : option ident;
  nhl_api_goal_ids_processed : gset string;
  pending_event_timers : gmap string nat;
  pending_event_payloads : gmap string (gmap string pyval);
  fired_event_ids : gset string;
  sb_goal_suppress_until_ts : pyfloat;
  sb_last_fired_home_away : option (Z * Z);
  pending_sb_goal_timers : gmap (Z * Z) nat;
  timers : gmap nat timer;
  next_handle : nat;
  emitted : list emission;
  resets : nat;
}.

Definition set_prev_home (v : Z) (s : State) : State :=
  mkState v (internal_prev_away_score s) (internal_prev_game_id_for_score_tracking s) (internal_prev_last_event_id s) (internal_win_fired_game_id s) (internal_start_fired_game_id s) (nhl_api_goal_ids_processed s) (pending_event_timers s) (pending_event_payloads s) (fired_event_ids s) (sb_goal_suppress_until_ts s) (sb_last_fired_home_away s) (pending_sb_goal_timers s) (timers s) (next_handle s) (emitted s) (resets s).
Definition set_prev_away (v : Z) (s : State) : State :=
  mkState (internal_prev_home_score s) v (internal_prev_game_id_for_score_tracking s) (internal_prev_last_event_id s) (internal_win_fired_game_id s) (internal_start_fired_game_id s) (nhl_api_goal_ids_processed s) (pending_event_timers s) (pending_event_payloads s) (fired_event_ids s) (sb_goal_suppress_until_ts s) (sb_last_fired_home_away s) (pending_sb_goal_timers s) (timers s) (next_handle s) (emitted s) (resets s).
Definition set_prev_game_id (v : option ident) (s : State) : State :=
  mkState (internal_prev_home_score s) (internal_prev_away_score s) v (internal_prev_last_event_id s) (internal_win_fired_game_id s) (internal_start_fired_game_id s) (nhl_api_goal_ids_processed s) (pending_event_timers s) (pending_event_payloads s) (fired_event_ids s) (sb_goal_suppress_until_ts s) (sb_last_fired_home_away s) (pending_sb_goal_timers s) (timers s) (next_handle s) (emitted s) (resets s).
Definition set_prev_last_event_id (v : option string) (s : State) : State :=
  mkState (internal_prev_home_score s) (internal_prev_away_score s) (internal_prev_game_id_for_score_tracking s) v (internal_win_fired_game_id s) (internal_start_fired_game_id s) (nhl_api_goal_ids_processed s) (pending_event_timers s) (pending_event_payloads s) (fired_event_ids s) (sb_goal_suppress_until_ts s) (sb_last_fired_home_away s) (pending_sb_goal_timers s) (timers s) (next_handle s) (emitted s) (resets s).
Definition set_win_fired (v : option ident) (s : State) : State :=
  mkState (internal_prev_home_score s) (internal_prev_away_score s) (internal_prev_game_id_for_score_tracking s) (internal_prev_last_event_id s) v (internal_start_fired_game_id s) (nhl_api_goal_ids_processed s) (pending_event_timers s) (pending_event_payloads s) (fired_event_ids s) (sb_goal_suppress_until_ts s) (sb_last_fired_home_away s) (pending_sb_goal_timers s) (timers s) (next_handle s) (emitted s) (resets s).
Definition set_start_fired (v : option ident) (s : State) : State :=
  mkState (internal_prev_home_score s) (internal_prev_away_score s) (internal_prev_game_id_for_score_tracking s) (internal_prev_last_event_id s) (internal_win_fired_game_id s) v (nhl_api_goal_ids_processed s) (pending_event_timers s) (pending_event_payloads s) (fired_event_ids s) (sb_goal_suppress_until_ts s) (sb_last_fired_home_away s) (pending_sb_goal_timers s) (timers s) (next_handle s) (emitted s) (resets s).
Definition set_processed (v : gset string) (s : State) : State :=
  mkState (internal_prev_home_score s) (internal_prev_away_score s) (internal_prev_game_id_for_score_tracking s) (internal_prev_last_event_id s) (internal_win_fired_game_id s) (internal_start_fired_game_id s) v (pending_event_timers s) (pending_event_payloads s) (fired_event_ids s) (sb_goal_suppress_until_ts s) (sb_last_fired_home_away s) (pending_sb_goal_timers s) (timers s) (next_handle s) (emitted s) (resets s).
Definition set_event_timers (v : gmap string nat) (s : State) : State :=
  mkState (internal_prev_home_score s) (internal_prev_away_score s) (internal_prev_game_id_for_score_tracking s) (internal_prev_last_event_id s) (internal_win_fired_game_id s) (internal_start_fired_game_id s) (nhl_api_goal_ids_processed s) v (pending_event_payloads s) (fired_event_ids s) (sb_goal_suppress_until_ts s) (sb_last_fired_home_away s) (pending_sb_goal_timers s) (timers s) (next_handle s) (emitted s) (resets s).
Definition set_event_payloads (v : gmap string (gmap string pyval)) (s : State) : State :=
  mkState (internal_prev_home_score s) (internal_prev_away_score s) (internal_prev_game_id_for_score_tracking s) (internal_prev_last_event_id s) (internal_win_fired_game_id s) (internal_start_fired_game_id s) (nhl_api_goal_ids_processed s) (pending_event_timers s) v (fired_event_ids s) (sb_goal_suppress_until_ts s) (sb_last_fired_home_away s) (pending_sb_goal_timers s) (timers s) (next_handle s) (emitted s) (resets s).
Definition set_fired (v : gset string) (s : State) : State :=
  mkState (internal_prev_home_score s) (internal_prev_away_score s) (internal_prev_game_id_for_score_tracking s) (internal_prev_last_event_id s) (internal_win_fired_game_id s) (internal_start_fired_game_id s) (nhl_api_goal_ids_processed s) (pending_event_timers s) (pending_event_payloads s) v (sb_goal_suppress_until_ts s) (sb_last_fired_home_away s) (pending_sb_goal_timers s) (timers s) (next_handle s) (emitted s) (resets s).
Definition set_suppress_until (v : pyfloat) (s : State) : State :=
  mkState (internal_prev_home_score s) (internal_prev_away_score s) (internal_prev_game_id_for_score_tracking s) (internal_prev_last_event_id s) (internal_win_fired_game_id s) (internal_start_fired_game_id s) (nhl_api_goal_ids_processed s) (pending_event_timers s) (pending_event_payloads s) (fired_event_ids s) v (sb_last_fired_home_away s) (pending_sb_goal_timers s) (timers s) (next_handle s) (emitted s) (resets s).
Definition set_sb_last (v : option (Z * Z)) (s : State) : State :=
  mkState (internal_prev_home_score s) (internal_prev_away_score s) (internal_prev_game_id_for_score_tracking s) (internal_prev_last_event_id s) (internal_win_fired_game_id s) (internal_start_fired_game_id s) (nhl_api_goal_ids_processed s) (pending_event_timers s) (pending_event_payloads s) (fired_event_ids s) (sb_goal_suppress_until_ts s) v (pending_sb_goal_timers s) (timers s) (next_handle s) (emitted s) (resets s).
Definition set_sb_timers (v : gmap (Z * Z) nat) (s : State) : State :=
  mkState (internal_prev_home_score s) (internal_prev_away_score s) (internal_prev_game_id_for_score_tracking s) (internal_prev_last_event_id s) (internal_win_fired_game_id s) (internal_start_fired_game_id s) (nhl_api_goal_ids_processed s) (pending_event_timers s) (pending_event_payloads s) (fired_event_ids s) (sb_goal_suppress_until_ts s) (sb_last_fired_home_away s) v (timers s) (next_handle s) (emitted s) (resets s).
Definition set_timers (v : gmap nat timer) (s : State) : State :=
  mkState (internal_prev_home_score s) (internal_prev_away_score s) (internal_prev_game_id_for_score_tracking s) (internal_prev_last_event_id s) (internal_win_fired_game_id s) (internal_start_fired_game_id s) (nhl_api_goal_ids_processed s) (pending_event_timers s) (pending_event_payloads s) (fired_event_ids s) (sb_goal_suppress_until_ts s) (sb_last_fired_home_away s) (pending_sb_goal_timers s) v (next_handle s) (emitted s) (resets s).
Definition set_next_handle (v : nat) (s : State) : State :=
  mkState (internal_prev_home_score s) (internal_prev_away_score s) (internal_prev_game_id_for_score_tracking s) (internal_prev_last_event_id s) (internal_win_fired_game_id s) (internal_start_fired_game_id s) (nhl_api_goal_ids_processed s) (pending_event_timers s) (pending_event_payloads s) (fired_event_ids s) (sb_goal_suppress_until_ts s) (sb_last_fired_home_away s) (pending_sb_goal_timers s) (timers s) v (emitted s) (resets s).
Definition set_emitted (v : list emission) (s : State) : State :=
  mkState (internal_prev_home_score s) (internal_prev_away_score s) (internal_prev_game_id_for_score_tracking s) (internal_prev_last_event_id s) (internal_win_fired_game_id s) (internal_start_fired_game_id s) (nhl_api_goal_ids_processed s) (pending_event_timers s) (pending_event_payloads s) (fired_event_ids s) (sb_goal_suppress_until_ts s) (sb_last_fired_home_away s) (pending_sb_goal_timers s) (timers s) (next_handle s) v (resets s).
Definition set_resets (v : nat) (s : State) : State :=
  mkState (internal_prev_home_score s) (internal_prev_away_score s) (internal_prev_game_id_for_score_tracking s) (internal_prev_last_event_id s) (internal_win_fired_game_id s) (internal_start_fired_game_id s) (nhl_api_goal_ids_processed s) (pending_event_timers s) (pending_event_payloads s) (fired_event_ids s) (sb_goal_suppress_until_ts s) (sb_last_fired_home_away s) (pending_sb_goal_timers s) (timers s) (next_handle s) (emitted s) v.

(** State after [initialize]. *)
Definition initial_state : State :=
  mkState 0 0 None None None None ∅ ∅ ∅ ∅ (Fin 0) None ∅ ∅ 0%nat [] 0%nat.

Definition run_in (now : Q) (cb : callback) (delay : pyfloat) (s : State)
    : nat * State :=
  let h := next_handle s in
  (h, set_next_handle (S h)
        (set_timers (<[h := {| t_at := now; t_delay := delay; t_cb := cb |}]> (timers s)) s)).

Definition timer_running (h : nat) (s : State) : bool :=
  bool_decide (is_Some (timers s !! h)).

Definition cancel_timer (h : nat) (s : State) : State :=
  set_timers (delete h (timers s)) s.

(** [if self.timer_running(handle): self.cancel_timer(handle)] *)
Definition cancel_if_running (h : nat) (s : State) : State :=
  if timer_running h s then cancel_timer h s else s.

Definition emit (e : emission) (s : State) : State :=
  set_emitted (emitted s ++ [e]) s.

(** ** Feed observations

    Feed A is the dashboard sensor ([new] of
    [dashboard_sensor_change_callback]); the same shape is what
    [get_state(dashboard, attribute="all")] returns at fire time.  Scores,
    ids and abbreviations have the types the producer publishes
    (nhl_dashboard_manager: int scores and ids, string abbreviations);
    [None] is an absent or null key.  The remaining attributes stay in the
    dict [a_attrs]. *)

Record DashObs : Type := {
  a_state : string;
  a_game_id : option ident;
  a_home_score : option Z;
  a_away_score : option Z;
  a_home_abbr : option string;
  a_away_abbr : option string;
  a_last_event : list (string * pyval);
  a_last_event_id : option ident;
  a_game_state_api : option string;
  a_attrs : gmap string pyval;
}.

(** The attributes seen when the sensor has no state ([{}]). *)
Definition empty_obs : DashObs :=
  {| a_state := ""; a_game_id := None; a_home_score := None;
     a_away_score := None; a_home_abbr := None; a_away_abbr := None;
     a_last_event := []; a_last_event_id := None; a_game_state_api := None;
     a_attrs := ∅ |}.

(** Feed B is the league API sensor ([new] and [old] of
    [nhl_api_sensor_change_callback]). *)
Record ApiObs : Type := {
  b_state : option string;
  b_old_state : option string;
  b_game_id : option ident;
  b_home_abbr : option string;
  b_away_abbr : option string;
  b_team_abbrev : option string;
  b_home_score : pyval;
  b_away_score : pyval;
  b_goal_event_id : option ident;
  b_goal_team_abbrev : option string;
  b_goal_team_abbr : option string;
  b_goal_tracked_team : pyval;
  b_attrs : gmap string pyval;
}.

(** What a callback reads from its surroundings while it runs. *)
Record Env : Type := {
  e_now : Q;                        (* time.time() *)
  e_selected : option string;       (* _get_selected_team_abbrev() *)
  e_delay_state : pyres pyval;      (* get_state(broadcast_delay_input_number) *)
  e_dash : option DashObs;          (* get_state(dashboard, attribute="all") *)
  e_is_test : bool;                 (* kwargs["is_test_trigger"] *)
}.

(** ** Equality of values ([==]) *)

Definition num_of (v : pyval) : option pyfloat :=
  match v with
  | VBool b => Some (Fin (if b then 1 else 0)%Q)
  | VInt z => Some (Fin (inject_Z z))
  | VFloat f => Some f
  | _ => None
  end.

Definition f_eqb (a b : pyfloat) : bool :=
  match a, b with
  | Fin x, Fin y => Qeq_bool x y
  | PInf, PInf | NInf, NInf => true
  | _, _ => false
  end.

Fixpoint py_eqb (a b : pyval) : bool :=
  match a, b with
  | VNone, VNone => true
  | VStr x, VStr y => String.eqb x y
  | VList x, VList y =>
    (fix go (x y : list pyval) : bool :=
       match x, y with
       | [], [] => true
       | u :: x', v :: y' => py_eqb u v && go x' y'
       | _, _ => false
       end) x y
  | VDict x, VDict y =>
    Nat.eqb (length x) (length y) &&
    forallb (fun kv => existsb (fun kw => String.eqb (fst kv) (fst kw) &&
                                          py_eqb (snd kv) (snd kw)) y) x
  | _, _ =>
    match num_of a, num_of b with
    | Some p, Some q => f_eqb p q
    | _, _ => false
    end
  end.

(** ** Session reset ([_clear_pending_events]) *)

Definition handles {K} `{Countable K} (m : gmap K nat) : list nat :=
  (map_to_list m).*2.

Definition _clear_pending_events (s : State) : State :=
  let s := foldr cancel_if_running s (handles (pending_event_timers s)) in
  let s := set_event_timers ∅ s in
  let s := set_event_payloads ∅ s in
  let s := set_fired ∅ s in
  let s := set_processed ∅ s in
  let s := foldr cancel_if_running s (handles (pending_sb_goal_timers s)) in
  let s := set_sb_timers ∅ s in
  let s := set_suppress_until (Fin 0) s in
  let s := set_sb_last None s in
  set_resets (S (resets s)) s.

(** ** Coalescing scheduler *)

Definition _schedule_event_coalesced (now : Q) (event_id event_type : string)
    (payload : gmap string pyval) (delay : pyfloat) (s : State) : State :=
  if bool_decide (event_id ∈ fired_event_ids s) then s else
  let s := set_event_payloads (<[event_id := payload]> (pending_event_payloads s)) s in
  match pending_event_timers s !! event_id with
  | Some _ => s
  | None =>
    let '(handle, s) :=
      run_in now (CoalescedFire event_id event_type) (py_max (Fin 0.1) delay) s in
    set_event_timers (<[event_id := handle]> (pending_event_timers s)) s
  end.

(** [str(attrs.get("last_event_id") or "")] *)
Definition snapshot_event_id (attrs : DashObs) : string :=
  match a_last_event_id attrs with
  | Some i => if id_true (Some i) then py_str i else ""
  | None => ""
  end.

Definition has_key (m : gmap string pyval) (k : string) : bool :=
  bool_decide (is_Some (m !! k)).

(** The late-binding block of [_coalesced_fire_callback]: the assignments
    made when the snapshot's last event is the firing one.  The two score
    assignments sit in a [try]; an [int] that raises leaves the later ones
    undone. *)
Definition late_bind (rt : Runtime) (attrs : DashObs)
    (payload : gmap string pyval) : gmap string pyval :=
  let p := <["raw_last_event" := VDict (a_last_event attrs)]> payload in
  let p := <["period_ord" :=
             py_or (get (a_attrs attrs) "period_ord") (get p "period_ord")]> p in
  let p := <["time_remaining" :=
             py_or (get (a_attrs attrs) "time_remaining") (get p "time_remaining")]> p in
  if has_key p "my_team_abbr" && has_key p "home_abbr" && has_key p "away_abbr" then
    let at_home := py_eqb (get p "my_team_abbr") (get p "home_abbr") in
    let mine := if at_home then a_home_score attrs else a_away_score attrs in
    let theirs := if at_home then a_away_score attrs else a_home_score attrs in
    match (match mine with Some z => Some z | None => py_int rt (get p "my_score") end) with
    | None => p
    | Some m =>
      let p := <["my_score" := VInt m]> p in
      match (match theirs with Some z => Some z | None => py_int rt (get p "opp_score") end) with
      | None => p
      | Some o => <["opp_score" := VInt o]> p
      end
    end
  else p.

(** [[self._cleanup_player_display(a) for a in names if a]] *)
Definition clean_names (rt : Runtime) (names : pyval) : pyval :=
  match names with
  | VList l => VList (map (fun a => VStr (_cleanup_player_display rt a)) (List.filter truthy l))
  | _ => VList []
  end.

(** The suppression test at the head of [_coalesced_fire_goal]; an
    exception inside its [try] (a score that is no number) counts as "not
    suppressed". *)
Definition suppressed_by_scoreboard (rt : Runtime) (now : Q)
    (payload : gmap string pyval) (s : State) : bool :=
  let home_abbr := get payload "home_abbr" in
  let my_abbr := get payload "my_team_abbr" in
  match py_int rt (get payload "my_score"), py_int rt (get payload "opp_score") with
  | Some my_score, Some opp_score =>
    if truthy home_abbr && truthy my_abbr then
      let sig_now := if py_eqb my_abbr home_abbr
                     then (my_score, opp_score) else (opp_score, my_score) in
      f_lt (Fin now) (sb_goal_suppress_until_ts s) &&
      bool_decide (sb_last_fired_home_away s = Some sig_now)
    else false
  | _, _ => false
  end.

(** The event [_emit_goal_events] sends for a goal: [goal_event_to_fire]
    for the tracked team, the opponent event (when configured) otherwise. *)
Definition goal_event_name (cfg : Config) (is_my_goal : bool) : option string :=
  if is_my_goal then Some (goal_event_to_fire cfg)
  else match opponent_goal_event_to_fire cfg with
       | Some n => if String.eqb n "" then None else Some n
       | None => None
       end.

(** [_coalesced_fire_goal]; [Raised] is the [KeyError] of a subscript
    [payload[...]] on a key the payload lacks. *)
Definition _coalesced_fire_goal (rt : Runtime) (cfg : Config) (now : Q)
    (event_id : string) (payload : gmap string pyval) (s : State) : pyres State :=
  if suppressed_by_scoreboard rt now payload s then Ok s else
  let last_evt := py_or (get_d payload "raw_last_event" (VDict [])) (VDict []) in
  let detail0 := py_or (get payload "goal_detail") (VDict []) in
  let detail :=
    if truthy detail0 then detail0
    else VDict (_match_goal_detail rt (get payload "scoring_feed")
                  (get payload "goal_team_abbr") (get payload "score_str")
                  (vget last_evt "scorer") (vget last_evt "timeInPeriod")) in
  let scorer := _cleanup_player_display rt
      (py_or (vget detail "scorer") (py_or (vget last_evt "scorer") (VStr "a player"))) in
  let assists :=
    if truthy (vget detail "assists") then vget detail "assists"
    else clean_names rt (get_d payload "assists" (VList [])) in
  let strength := py_or (vget detail "strength") (py_or (vget last_evt "strength") (VStr "")) in
  let shot_type := py_or (vget detail "shot_type") (py_or (vget last_evt "shotType") (VStr "")) in
  let period_ord :=
    py_or (vget detail "period_ord")
      (py_or (get payload "period_ord") (py_or (vget last_evt "periodOrd") (VStr ""))) in
  let when :=
    py_or (vget detail "time")
      (py_or (vget last_evt "timeInPeriod") (py_or (get payload "time_remaining") (VStr ""))) in
  if has_key payload "is_my_event" && has_key payload "my_team_full" &&
     has_key payload "my_team_abbr" && has_key payload "opp_team_full" &&
     has_key payload "opp_team_abbr" && has_key payload "my_score" &&
     has_key payload "opp_score"
  then
    let is_my_goal := truthy (get payload "is_my_event") in
    Ok (emit (GoalDispatched (ViaCoalesced event_id)
                {| ge_is_my_goal := is_my_goal;
                   ge_event := goal_event_name cfg is_my_goal;
                   ge_scorer := scorer;
                   ge_assists := assists;
                   ge_strength := strength;
                   ge_shot_type := shot_type;
                   ge_period := period_ord;
                   ge_time_remaining := when;
                   ge_my_team_score := get payload "my_score";
                   ge_opp_team_score := get payload "opp_score" |}) s)
  else Raised.

(** [_coalesced_fire_penalty]; the body is one [try] whose handler only
    logs, so the call always returns. *)
Definition _coalesced_fire_penalty (rt : Runtime) (event_id : string)
    (payload : gmap string pyval) (s : State) : State :=
  let last_evt := py_or (get_d payload "raw_last_event" (VDict [])) (VDict []) in
  let detail0 := py_or (get payload "penalty_detail") (VDict []) in
  let detail :=
    if truthy detail0 then detail0
    else VDict (_match_penalty_detail rt (get payload "penalties_feed")
                  (vget last_evt "team")
                  (py_or (vget last_evt "penalty_name")
                     (py_or (vget last_evt "penaltyName") (vget last_evt "descKey")))
                  (py_or (vget last_evt "penalty_committed_by") (vget last_evt "playerName"))
                  (vget last_evt "timeInPeriod") (vget last_evt "periodOrd")) in
  let who := _cleanup_player_display rt
      (py_or (vget detail "who")
         (py_or (vget last_evt "penalty_committed_by")
            (py_or (vget last_evt "playerName") (VStr "Unknown Player")))) in
  let penalty_name :=
    py_or (vget detail "name")
      (py_or (vget last_evt "penalty_name")
         (py_or (vget last_evt "penaltyName")
            (py_or (vget detail "penalty") (VStr "Penalty")))) in
  let when_evt :=
    py_or (vget detail "time")
      (py_or (vget last_evt "timeInPeriod") (py_or (get payload "time_remaining") (VStr ""))) in
  let period_ord_evt :=
    py_or (vget detail "period_ord")
      (py_or (vget last_evt "periodOrd") (py_or (get payload "period_ord") (VStr ""))) in
  let team_evt :=
    upper (str_or_empty (py_or (vget detail "team_abbr") (vget last_evt "team"))) in
  emit (PenaltyDispatched event_id
          {| pe_team_abbr := team_evt;
             pe_my_team_abbr := get payload "my_team_abbr";
             pe_opp_team_abbr := get payload "opp_team_abbr";
             pe_period := period_ord_evt;
             pe_time_remaining := when_evt;
             pe_player := who;
             pe_penalty_name := penalty_name |}) s.

(** The payload handed to the goal or penalty emitter: the stored draft,
    late-bound when the snapshot's last event id is the firing one. *)
Definition fire_payload (rt : Runtime) (env : Env) (event_id : string)
    (s : State) : gmap string pyval :=
  let payload := default ∅ (pending_event_payloads s !! event_id) in
  let attrs := default empty_obs (e_dash env) in
  if String.eqb (snapshot_event_id attrs) event_id
  then late_bind rt attrs payload else payload.

(** [_coalesced_fire_callback].  The draft is mutated in place, so when the
    emitter raises, the stored (non-empty) draft keeps the late-bound
    fields and the bookkeeping after the emitter is skipped. *)
Definition _coalesced_fire_callback (rt : Runtime) (cfg : Config) (env : Env)
    (event_id event_type : string) (s : State) : State :=
  let event_type := lower event_type in
  let payload := fire_payload rt env event_id s in
  let s :=
    match pending_event_payloads s !! event_id with
    | Some stored =>
      if bool_decide (stored = ∅) then s
      else set_event_payloads (<[event_id := payload]> (pending_event_payloads s)) s
    | None => s
    end in
  let r :=
    if String.eqb event_type "goal"
    then _coalesced_fire_goal rt cfg (e_now env) event_id payload s
    else if String.eqb event_type "penalty"
    then Ok (_coalesced_fire_penalty rt event_id payload s)
    else Ok s in
  match r with
  | Raised => s
  | Ok s =>
    let s := set_fired ({[event_id]} ∪ fired_event_ids s) s in
    let s :=
      match pending_event_timers s !! event_id with
      | Some handle =>
        cancel_if_running handle
          (set_event_timers (delete event_id (pending_event_timers s)) s)
      | None => s
      end in
    let s := set_event_payloads (delete event_id (pending_event_payloads s)) s in
    set_prev_last_event_id (Some event_id) s
  end.

(** ** Scoreboard fallback *)

(** [_fire_my_goal_immediate] and [_fire_opponent_goal_immediate]: the two
    differ in [is_my_goal] and in the name texts only. *)
Definition scoreboard_goal (rt : Runtime) (cfg : Config) (kw : sb_kwargs)
    (is_my_goal : bool) : goal_event :=
  let detail :=
    match kw_goal_detail kw with
    | [] => _match_goal_detail rt (kw_scoring_feed kw) (VStr (kw_goal_team_abbr kw))
              (VStr (kw_score_str kw)) VNone VNone
    | d => d
    end in
  let scorer0 :=
    match detail with
    | [] => ""
    | _ => _cleanup_player_display rt (dget detail "scorer")
    end in
  let scorer :=
    if String.eqb scorer0 "" then _parse_scorer_from_last_play rt (kw_last_play kw)
    else scorer0 in
  {| ge_is_my_goal := is_my_goal;
     ge_event := goal_event_name cfg is_my_goal;
     ge_scorer := scorer;
     ge_assists := match detail with [] => VList [] | _ => dget detail "assists" end;
     ge_strength := match detail with [] => VNone | _ => dget detail "strength" end;
     ge_shot_type := match detail with [] => VNone | _ => dget detail "shot_type" end;
     ge_period := py_or (dget detail "period_ord") (kw_period_ord kw);
     ge_time_remaining := py_or (dget detail "time") (kw_time_remaining kw);
     ge_my_team_score := VInt (kw_my_score kw);
     ge_opp_team_score := VInt (kw_opp_score kw) |}.

(** [_scoreboard_goal_fire_wrapper]: dispatch, raise the suppression entry
    for the score signature, drop the timer's registration. *)
Definition _scoreboard_goal_fire_wrapper (rt : Runtime) (cfg : Config) (now : Q)
    (kw : sb_kwargs) (s : State) : State :=
  let score_sig := kw_score_sig kw in
  let ev := scoreboard_goal rt cfg kw (String.eqb (kw_kind kw) "my") in
  let s := emit (GoalDispatched (ViaScoreboard score_sig) ev) s in
  let s := set_sb_last (Some score_sig) s in
  let s := set_suppress_until
             (f_add (Fin now) (suppress_after_scoreboard_goal_seconds cfg)) s in
  set_sb_timers (delete score_sig (pending_sb_goal_timers s)) s.

(** The closure [_fire_win] of either win detector. *)
Definition _fire_win (cfg : Config) (ev : win_event) (s : State) : State :=
  set_win_fired (we_game_id ev) (emit (WinDispatched (team_win_event_to_fire cfg) ev) s).

(** A timer comes due: AppDaemon drops it from its table and runs the
    callback.  A handle that is not live fires nothing. *)
Definition fire_timer (rt : Runtime) (cfg : Config) (env : Env) (h : nat)
    (s : State) : State :=
  match timers s !! h with
  | None => s
  | Some t =>
    let s := set_timers (delete h (timers s)) s in
    match t_cb t with
    | CoalescedFire event_id event_type =>
      _coalesced_fire_callback rt cfg env event_id event_type s
    | ScoreboardFire kw => _scoreboard_goal_fire_wrapper rt cfg (e_now env) kw s
    | WinFire ev => _fire_win cfg ev s
    end
  end.

(** ** Feed B: the league API bridge *)

(** The dict [_build_nhl_api_context] returns. *)
Record Context : Type := {
  c_my_team_abbr : string;
  c_my_team_full : pyval;
  c_opp_team_abbr : string;
  c_opp_team_full : pyval;
  c_is_home : bool;
  c_home_abbr : string;
  c_away_abbr : string;
  c_home_logo : pyval;
  c_away_logo : pyval;
  c_home_score : Z;
  c_away_score : Z;
  c_game_url : pyval;
  c_game_id : option ident;
}.

Definition _build_nhl_api_context (rt : Runtime) (new : ApiObs)
    (selected_team_abbrev : string) : option Context :=
  let attrs := b_attrs new in
  let home_abbr := upper (ostr_or (b_home_abbr new) "") in
  let away_abbr := upper (ostr_or (b_away_abbr new) "") in
  let sensor_abbr := upper (ostr_or (b_team_abbrev new) "") in
  let target :=
    if String.eqb selected_team_abbrev home_abbr || String.eqb selected_team_abbrev away_abbr
    then Some selected_team_abbrev
    else if String.eqb sensor_abbr home_abbr || String.eqb sensor_abbr away_abbr
    then Some sensor_abbr
    else None in
  match target with
  | None => None
  | Some target_abbr =>
    let is_home := String.eqb target_abbr home_abbr in
    let table_name :=
      VStr (default target_abbr (NHL_TEAM_ABBREV_TO_FULL_NAME_MAP rt target_abbr)) in
    let my_team_full :=
      py_or (get attrs "my_team_name")
        (py_or (if is_home then get attrs "home_name" else get attrs "away_name")
           table_name) in
    let opp_team_full :=
      py_or (get attrs "opponent_name")
        (py_or (if is_home then get attrs "away_name" else get attrs "home_name")
           (VStr "Opponent")) in
    Some {| c_my_team_abbr := target_abbr;
            c_my_team_full := my_team_full;
            c_opp_team_abbr := if is_home then away_abbr else home_abbr;
            c_opp_team_full := opp_team_full;
            c_is_home := is_home;
            c_home_abbr := home_abbr;
            c_away_abbr := away_abbr;
            c_home_logo := py_or (get attrs "home_logo_dark") (get attrs "home_logo");
            c_away_logo := py_or (get attrs "away_logo_dark") (get attrs "away_logo");
            c_home_score := default 0 (py_int rt (b_home_score new));
            c_away_score := default 0 (py_int rt (b_away_score new));
            c_game_url :=
              py_or (get attrs "game_url")
                (if id_true (b_game_id new)
                 then VStr ("https://www.nhl.com/gamecenter/" +:+
                            from_option py_str "" (b_game_id new))
                 else VNone);
            c_game_id := b_game_id new |}
  end.

(** [_determine_goal_side]: the answer and the lines it logs.  The previous
    scores are read from the app object. *)
Definition _determine_goal_side (new : ApiObs) (context : Context)
    (s : State) : bool * list string :=
  let goal_team :=
    upper (ostr_or (b_goal_team_abbrev new) (ostr_or (b_goal_team_abbr new) "")) in
  let tracked_flag := b_goal_tracked_team new in
  let my_abbr := c_my_team_abbr context in
  let opp_abbr := c_opp_team_abbr context in
  if negb (String.eqb goal_team "") && String.eqb goal_team my_abbr then (true, [])
  else if negb (String.eqb goal_team "") && String.eqb goal_team opp_abbr then (false, [])
  else
    match tracked_flag with
    | VBool b => (b, [])
    | _ =>
      let prev_home := internal_prev_home_score s in
      let prev_away := internal_prev_away_score s in
      let cur_home := c_home_score context in
      let cur_away := c_away_score context in
      let undetermined :=
        (false, ["Goal side undetermined; defaulting to opponent."]) in
      if String.eqb my_abbr (c_home_abbr context) then
        if cur_home >? prev_home then (true, [])
        else if cur_away >? prev_away then (false, [])
        else undetermined
      else
        if cur_away >? prev_away then (true, [])
        else if cur_home >? prev_home then (false, [])
        else undetermined
    end.

Definition _build_nhl_api_goal_payload (rt : Runtime) (new : ApiObs)
    (context : Context) (is_my_event : bool) : gmap string pyval :=
  let attrs := b_attrs new in
  let scorer :=
    py_or (get attrs "scoring_player_name")
      (py_or (get attrs "scoring_player") (VStr "a player")) in
  let assist1 := get attrs "assist1_player_name" in
  let assist2 := get attrs "assist2_player_name" in
  let assists0 := clean_names rt (VList [assist1; assist2]) in
  let assists :=
    match get attrs "assists" with
    | VList l => if truthy assists0 then assists0 else clean_names rt (VList l)
    | _ => assists0
    end in
  let period_ord :=
    py_or (get attrs "current_period") (py_or (get attrs "period") (VStr "")) in
  let time_remaining :=
    py_or (get attrs "time_remaining") (py_or (get attrs "goal_time") (VStr "--:--")) in
  let my_score := if c_is_home context then c_home_score context else c_away_score context in
  let opp_score := if c_is_home context then c_away_score context else c_home_score context in
  let goal_team_abbr :=
    if is_my_event then c_my_team_abbr context else c_opp_team_abbr context in
  let score_str := pretty (c_home_score context) +:+ "-" +:+ pretty (c_away_score context) in
  let goal_feed :=
    py_or (get attrs "scoring_detailed") (py_or (get attrs "scoring_detail") (VList [])) in
  let goal_time := py_or (get attrs "goal_time") time_remaining in
  let goal_detail :=
    _match_goal_detail rt goal_feed (VStr goal_team_abbr) (VStr score_str) scorer goal_time in
  let last_play :=
    if truthy (get attrs "last_goal_description") then get attrs "last_goal_description"
    else VStr ("Goal: " +:+ _cleanup_player_display rt scorer +:+ " (" +:+ goal_team_abbr
               +:+ ") at " +:+ text_of rt time_remaining +:+ " of "
               +:+ text_of rt (py_or period_ord (VStr "current period")) +:+ " (NHL API)") in
  let raw_last_event :=
    VDict [("type", VStr "goal"); ("team", VStr goal_team_abbr); ("scorer", scorer);
           ("assist1", assist1); ("assist2", assist2);
           ("strength", get attrs "goal_type"); ("shotType", get attrs "shot_type");
           ("timeInPeriod", goal_time); ("periodOrd", period_ord)] in
  list_to_map
    [("is_my_event", VBool is_my_event);
     ("my_team_abbr", VStr (c_my_team_abbr context));
     ("my_team_full", c_my_team_full context);
     ("opp_team_abbr", VStr (c_opp_team_abbr context));
     ("opp_team_full", c_opp_team_full context);
     ("home_abbr", VStr (c_home_abbr context));
     ("away_abbr", VStr (c_away_abbr context));
     ("home_logo", c_home_logo context);
     ("away_logo", c_away_logo context);
     ("period_ord", period_ord);
     ("time_remaining", time_remaining);
     ("game_url", c_game_url context);
     ("my_score", VInt my_score);
     ("opp_score", VInt opp_score);
     ("last_play", last_play);
     ("raw_last_event", raw_last_event);
     ("assists", assists);
     ("score_str", VStr score_str);
     ("goal_team_abbr", VStr goal_team_abbr);
     ("goal_detail", VDict goal_detail);
     ("scoring_feed", goal_feed)].

Definition _fire_puck_drop (context : Context) (s : State) : State :=
  let game_id := c_game_id context in
  if id_true game_id && bool_decide (internal_start_fired_game_id s = game_id) then s
  else set_start_fired game_id (emit (PuckDropDispatched game_id) s).

(** [max(0.1, float(coalesce) + self._get_broadcast_delay())] *)
Definition coalesced_delay (rt : Runtime) (cfg : Config) (env : Env)
    (coalesce : pyfloat) : pyfloat :=
  py_max (Fin 0.1) (f_add coalesce (_get_broadcast_delay rt cfg (e_delay_state env))).

(** [max(0.1, self._get_broadcast_delay())] *)
Definition broadcast_only_delay (rt : Runtime) (cfg : Config) (env : Env) : pyfloat :=
  py_max (Fin 0.1) (_get_broadcast_delay rt cfg (e_delay_state env)).

(** [pending_sb_goal_timers.pop(score_sig, None)] followed by the guarded
    cancel. *)
Definition cancel_scoreboard_fallback (score_sig : Z * Z) (s : State) : State :=
  match pending_sb_goal_timers s !! score_sig with
  | Some h =>
    cancel_if_running h (set_sb_timers (delete score_sig (pending_sb_goal_timers s)) s)
  | None => s
  end.

Definition _process_nhl_api_win (rt : Runtime) (cfg : Config) (env : Env)
    (context : Context) (s : State) : State :=
  let game_id := c_game_id context in
  if negb (id_true game_id) then s else
  let my_score := if c_is_home context then c_home_score context else c_away_score context in
  let opp_score := if c_is_home context then c_away_score context else c_home_score context in
  if my_score <=? opp_score then s
  else if bool_decide (internal_win_fired_game_id s = game_id) then s
  else if celebrate_win_only_if_home cfg && negb (c_is_home context) then s
  else
    snd (run_in (e_now env)
           (WinFire {| we_game_id := game_id;
                       we_my_team_abbr := c_my_team_abbr context;
                       we_opp_team_abbr := c_opp_team_abbr context;
                       we_my_team_score := my_score;
                       we_opp_team_score := opp_score;
                       we_is_home := c_is_home context;
                       we_source := "NHL_API_WIN" |})
           (broadcast_only_delay rt cfg env) s).

(** The reset block both callbacks run on a new [game_id] (the dashboard
    one also re-baselines the scores, see below). *)
Definition reset_trackers (game_id : option ident) (s : State) : State :=
  let s := _clear_pending_events s in
  let s := set_prev_game_id game_id s in
  let s := set_prev_last_event_id None s in
  let s := set_win_fired None s in
  set_start_fired None s.

(** The goal branch of the API callback ([goal_event_id] is set). *)
Definition api_goal (rt : Runtime) (cfg : Config) (env : Env) (new : ApiObs)
    (context : Context) (goal_event_id : ident) (s : State) : State :=
  let event_id := py_str goal_event_id in
  if bool_decide (event_id ∈ nhl_api_goal_ids_processed s) then s else
  let is_my_goal := fst (_determine_goal_side new context s) in
  let payload := _build_nhl_api_goal_payload rt new context is_my_goal in
  let score_sig := (c_home_score context, c_away_score context) in
  let s := cancel_scoreboard_fallback score_sig s in
  let s := set_sb_last (Some score_sig) s in
  let s := set_suppress_until
             (f_add (Fin (e_now env)) (suppress_after_scoreboard_goal_seconds cfg)) s in
  let total_delay := coalesced_delay rt cfg env (coalesce_goal_seconds cfg) in
  let s := _schedule_event_coalesced (e_now env) event_id "goal" payload total_delay s in
  set_processed ({[event_id]} ∪ nhl_api_goal_ids_processed s) s.

(** The reset block of the API callback: a new [game_id] resets the
    trackers. *)
Definition api_session (context : Context) (s : State) : State :=
  if id_true (c_game_id context) &&
     bool_decide (c_game_id context ≠ internal_prev_game_id_for_score_tracking s)
  then reset_trackers (c_game_id context) s else s.

(** What the API callback does once the update has passed its guards and a
    context was built. *)
Definition api_observe (rt : Runtime) (cfg : Config) (env : Env) (state : string)
    (new : ApiObs) (context : Context) (s : State) : State :=
  let s := api_session context s in
  let s :=
    if String.eqb state "LIVE" &&
       negb (match b_old_state new with
             | Some o => str_in o ["LIVE"; "CRIT"]
             | None => false
             end)
    then _fire_puck_drop context s else s in
  let s := set_prev_home (c_home_score context) s in
  let s := set_prev_away (c_away_score context) s in
  let s :=
    match b_goal_event_id new with
    | Some gid => if id_true (Some gid) then api_goal rt cfg env new context gid s else s
    | None => s
    end in
  if str_in state ["FINAL"; "OFF"] then _process_nhl_api_win rt cfg env context s else s.

(** The observation Feed B normalises to, if any: the state must be known,
    a team selected and present in the game. *)
Definition api_context (rt : Runtime) (env : Env) (new : ApiObs)
    : option (string * Context) :=
  match b_state new with
  | None => None
  | Some state =>
    if str_in state ["unknown"; "unavailable"] then None else
    match e_selected env with
    | None => None
    | Some sel =>
      if String.eqb sel "" || String.eqb sel "NONE" then None
      else match _build_nhl_api_context rt new sel with
           | Some context => Some (state, context)
           | None => None
           end
    end
  end.

Definition nhl_api_sensor_change_callback (rt : Runtime) (cfg : Config)
    (env : Env) (new : ApiObs) (s : State) : State :=
  match api_context rt env new with
  | None => s
  | Some (state, context) => api_observe rt cfg env state new context s
  end.

(** ** Feed A: the dashboard sensor *)

(** The per-side variables the dashboard callback binds once it knows
    which side the tracked team plays. *)
Record Side : Type := {
  sd_my_team_full : pyval;
  sd_opp_team_full : pyval;
  sd_my_team_abbr : string;
  sd_opp_team_abbr : string;
  sd_my_logo : pyval;
  sd_opp_logo : pyval;
  sd_my_score_new : Z;
  sd_opp_score_new : Z;
  sd_my_score_prev : Z;
  sd_opp_score_prev : Z;
  sd_is_home : bool;
}.

Definition obs_home_score (new : DashObs) : Z := default 0 (a_home_score new).
Definition obs_away_score (new : DashObs) : Z := default 0 (a_away_score new).
Definition obs_home_abbr (new : DashObs) : string := upper (ostr_or (a_home_abbr new) "HME").
Definition obs_away_abbr (new : DashObs) : string := upper (ostr_or (a_away_abbr new) "AWY").

Definition dashboard_side (env : Env) (new : DashObs) (s : State) : option Side :=
  let attrs := a_attrs new in
  let home_abbr := obs_home_abbr new in
  let away_abbr := obs_away_abbr new in
  if bool_decide (e_selected env = Some home_abbr) then
    Some {| sd_my_team_full := get_d attrs "home_name" (VStr "Home");
            sd_opp_team_full := get_d attrs "away_name" (VStr "Away");
            sd_my_team_abbr := home_abbr;
            sd_opp_team_abbr := away_abbr;
            sd_my_logo := get_d attrs "home_logo" (VStr "");
            sd_opp_logo := get_d attrs "away_logo" (VStr "");
            sd_my_score_new := obs_home_score new;
            sd_opp_score_new := obs_away_score new;
            sd_my_score_prev := internal_prev_home_score s;
            sd_opp_score_prev := internal_prev_away_score s;
            sd_is_home := true |}
  else if bool_decide (e_selected env = Some away_abbr) then
    Some {| sd_my_team_full := get_d attrs "away_name" (VStr "Away");
            sd_opp_team_full := get_d attrs "home_name" (VStr "Home");
            sd_my_team_abbr := away_abbr;
            sd_opp_team_abbr := home_abbr;
            sd_my_logo := get_d attrs "away_logo" (VStr "");
            sd_opp_logo := get_d attrs "home_logo" (VStr "");
            sd_my_score_new := obs_away_score new;
            sd_opp_score_new := obs_home_score new;
            sd_my_score_prev := internal_prev_away_score s;
            sd_opp_score_prev := internal_prev_home_score s;
            sd_is_home := false |}
  else None.

Definition my_scored (sd : Side) : bool := sd_my_score_new sd >? sd_my_score_prev sd.
Definition opp_scored (sd : Side) : bool := sd_opp_score_new sd >? sd_opp_score_prev sd.

(** The first block of the dashboard callback: the session reset on a new
    [game_id] (baseline taken from the observation) or on a missing one
    (baseline zero). *)
Definition dashboard_session (env : Env) (new : DashObs) (s : State) : State :=
  let current_game_id := a_game_id new in
  if id_true current_game_id &&
     bool_decide (current_game_id ≠ internal_prev_game_id_for_score_tracking s)
  then
    let s := _clear_pending_events s in
    let s := set_prev_home (obs_home_score new) s in
    let s := set_prev_away (obs_away_score new) s in
    let s := set_prev_game_id current_game_id s in
    let s := set_prev_last_event_id None s in
    let s := set_win_fired None s in
    set_start_fired None s
  else if negb (id_true current_game_id) && negb (e_is_test env) then
    let s := _clear_pending_events s in
    let s := set_prev_home 0 s in
    let s := set_prev_away 0 s in
    let s := set_prev_game_id None s in
    let s := set_prev_last_event_id None s in
    let s := set_win_fired None s in
    set_start_fired None s
  else s.

(** [last_event_id not in self.fired_event_ids]: the raw id against a set
    of strings. *)
Definition raw_id_fired (last_event_id : option ident) (s : State) : bool :=
  match last_event_id with
  | Some (IdStr x) => bool_decide (x ∈ fired_event_ids s)
  | _ => false
  end.

Definition score_str_of (new : DashObs) : string :=
  pretty (obs_home_score new) +:+ "-" +:+ pretty (obs_away_score new).

Definition dashboard_goal_payload (rt : Runtime) (new : DashObs) (sd : Side)
    (evt_team : string) : gmap string pyval :=
  let attrs := a_attrs new in
  let last_event := a_last_event new in
  let is_my_event :=
    if String.eqb evt_team "" then my_scored sd
    else String.eqb evt_team (sd_my_team_abbr sd) in
  let goal_team_abbr :=
    if String.eqb evt_team ""
    then (if is_my_event then sd_my_team_abbr sd else sd_opp_team_abbr sd)
    else evt_team in
  let scoring_feed := get attrs "scoring_detailed" in
  let goal_detail :=
    _match_goal_detail rt scoring_feed (VStr goal_team_abbr) (VStr (score_str_of new))
      (dget last_event "scorer") (dget last_event "timeInPeriod") in
  list_to_map
    [("is_my_event", VBool is_my_event);
     ("my_team_abbr", VStr (sd_my_team_abbr sd));
     ("my_team_full", sd_my_team_full sd);
     ("opp_team_abbr", VStr (sd_opp_team_abbr sd));
     ("opp_team_full", sd_opp_team_full sd);
     ("home_abbr", VStr (obs_home_abbr new));
     ("away_abbr", VStr (obs_away_abbr new));
     ("home_logo", get_d attrs "home_logo" (VStr ""));
     ("away_logo", get_d attrs "away_logo" (VStr ""));
     ("period_ord", get_d attrs "period_ord" (VStr ""));
     ("time_remaining", get_d attrs "time_remaining" (VStr ""));
     ("game_url", get_d attrs "game_url" (VStr ""));
     ("my_score", VInt (sd_my_score_new sd));
     ("opp_score", VInt (sd_opp_score_new sd));
     ("last_play", get_d attrs "last_play" (VStr "N/A"));
     ("raw_last_event", VDict last_event);
     ("score_str", VStr (score_str_of new));
     ("goal_team_abbr", VStr goal_team_abbr);
     ("goal_detail", VDict goal_detail);
     ("scoring_feed", scoring_feed)].

Definition dashboard_penalty_payload (rt : Runtime) (new : DashObs) (sd : Side)
    (evt_team : string) : gmap string pyval :=
  let attrs := a_attrs new in
  let last_event := a_last_event new in
  let penalties_feed := get attrs "penalties_detailed" in
  let penalty_detail :=
    _match_penalty_detail rt penalties_feed (VStr evt_team)
      (py_or (dget last_event "penaltyName")
         (py_or (dget last_event "penalty_name") (dget last_event "descKey")))
      (py_or (dget last_event "penalty_committed_by") (dget last_event "playerName"))
      (dget last_event "timeInPeriod") (dget last_event "periodOrd") in
  list_to_map
    [("my_team_abbr", VStr (sd_my_team_abbr sd));
     ("opp_team_abbr", VStr (sd_opp_team_abbr sd));
     ("period_ord", get_d attrs "period_ord" (VStr ""));
     ("time_remaining", get_d attrs "time_remaining" (VStr ""));
     ("raw_last_event", VDict last_event);
     ("penalties_feed", penalties_feed);
     ("penalty_detail", VDict penalty_detail);
     ("scoring_feed", get attrs "scoring_detailed")].

(** The identified-event block: returns the state and [scheduled_by_event]. *)
Definition dashboard_event (rt : Runtime) (cfg : Config) (env : Env)
    (new : DashObs) (sd : Side) (s : State) : State * bool :=
  let new_state := upper (a_state new) in
  let last_event := a_last_event new in
  let last_event_id := a_last_event_id new in
  if str_in new_state ["LIVE"; "CRIT"] &&
     match last_event with [] => false | _ => true end &&
     id_true last_event_id && negb (raw_id_fired last_event_id s)
  then
    let evt_type := lower (str_or_empty (dget last_event "type")) in
    let evt_team := upper (str_or_empty (dget last_event "team")) in
    let event_id := from_option py_str "" last_event_id in
    if String.eqb evt_type "goal" then
      let s := cancel_scoreboard_fallback (obs_home_score new, obs_away_score new) s in
      let delay := coalesced_delay rt cfg env (coalesce_goal_seconds cfg) in
      (_schedule_event_coalesced (e_now env) event_id "goal"
         (dashboard_goal_payload rt new sd evt_team) delay s, true)
    else if String.eqb evt_type "penalty" then
      let delay := coalesced_delay rt cfg env (coalesce_penalty_seconds cfg) in
      (_schedule_event_coalesced (e_now env) event_id "penalty"
         (dashboard_penalty_payload rt new sd evt_team) delay s, true)
    else (s, false)
  else (s, false).

(** The keyword arguments of the fallback timer for this observation. *)
Definition fallback_kwargs (rt : Runtime) (new : DashObs) (sd : Side)
    (kind : string) : sb_kwargs :=
  let attrs := a_attrs new in
  let scoring_feed := get attrs "scoring_detailed" in
  let score_sig := (obs_home_score new, obs_away_score new) in
  let goal_team_abbr :=
    if String.eqb kind "my"
    then (if sd_is_home sd then obs_home_abbr new else obs_away_abbr new)
    else sd_opp_team_abbr sd in
  {| kw_kind := kind;
     kw_my_team_full := if String.eqb kind "my" then sd_my_team_full sd else VNone;
     kw_my_abbr := sd_my_team_abbr sd;
     kw_my_logo := sd_my_logo sd;
     kw_opp_team_full := sd_opp_team_full sd;
     kw_opp_abbr := sd_opp_team_abbr sd;
     kw_opp_logo := sd_opp_logo sd;
     kw_my_score := sd_my_score_new sd;
     kw_opp_score := sd_opp_score_new sd;
     kw_period_ord := get_d attrs "period_ord" (VStr "");
     kw_time_remaining := get_d attrs "time_remaining" (VStr "");
     kw_last_play := get_d attrs "last_play" (VStr "N/A");
     kw_game_url := get_d attrs "game_url" (VStr "");
     kw_score_sig := score_sig;
     kw_scoring_feed := scoring_feed;
     kw_goal_detail :=
       _match_goal_detail rt scoring_feed (VStr goal_team_abbr)
         (VStr (score_str_of new)) VNone VNone;
     kw_goal_team_abbr := goal_team_abbr;
     kw_score_str := score_str_of new |}.

(** [run_in(self._scoreboard_goal_fire_wrapper, max(0.1, delay), ...)] and
    the registration under the score signature. *)
Definition schedule_fallback (rt : Runtime) (cfg : Config) (env : Env)
    (new : DashObs) (sd : Side) (kind : string) (s : State) : State :=
  let kw := fallback_kwargs rt new sd kind in
  let '(handle, s) :=
    run_in (e_now env) (ScoreboardFire kw) (broadcast_only_delay rt cfg env) s in
  set_sb_timers (<[kw_score_sig kw := handle]> (pending_sb_goal_timers s)) s.

(** The scoreboard-fallback block ([if not scheduled_by_event]). *)
Definition dashboard_fallback (rt : Runtime) (cfg : Config) (env : Env)
    (new : DashObs) (sd : Side) (s : State) : State :=
  if my_scored sd then schedule_fallback rt cfg env new sd "my" s
  else if opp_scored sd &&
          match opponent_goal_event_to_fire cfg with
          | Some n => negb (String.eqb n "")
          | None => false
          end
  then schedule_fallback rt cfg env new sd "opp" s
  else s.

(** The win block of the dashboard callback. *)
Definition dashboard_win (rt : Runtime) (cfg : Config) (env : Env)
    (new : DashObs) (sd : Side) (s : State) : State :=
  let current_game_id := a_game_id new in
  let new_game_state_api := default "UNKNOWN" (a_game_state_api new) in
  let my_team_won :=
    str_in new_game_state_api ["FINAL"; "OFF"] &&
    (sd_my_score_new sd >? sd_opp_score_new sd) in
  if my_team_won && id_true current_game_id then
    if bool_decide (internal_win_fired_game_id s ≠ current_game_id) &&
       (negb (celebrate_win_only_if_home cfg) || sd_is_home sd)
    then
      snd (run_in (e_now env)
             (WinFire {| we_game_id := current_game_id;
                         we_my_team_abbr := sd_my_team_abbr sd;
                         we_opp_team_abbr := sd_opp_team_abbr sd;
                         we_my_team_score := sd_my_score_new sd;
                         we_opp_team_score := sd_opp_score_new sd;
                         we_is_home := sd_is_home sd;
                         we_source := "WIN" |})
             (broadcast_only_delay rt cfg env) s)
    else s
  else s.

(** The last block: the score baseline follows the observation only when a
    side scored. *)
Definition dashboard_baseline (new : DashObs) (sd : Side) (s : State) : State :=
  if bool_decide (a_game_id new = internal_prev_game_id_for_score_tracking s) then
    if my_scored sd || opp_scored sd then
      set_prev_away (obs_away_score new) (set_prev_home (obs_home_score new) s)
    else s
  else s.

Definition dashboard_sensor_change_callback (rt : Runtime) (cfg : Config)
    (env : Env) (new : DashObs) (s : State) : State :=
  if String.eqb (a_state new) "unavailable" then s else
  let s := dashboard_session env new s in
  match dashboard_side env new s with
  | None => s
  | Some sd =>
    let '(s, scheduled_by_event) := dashboard_event rt cfg env new sd s in
    let s := if scheduled_by_event then s else dashboard_fallback rt cfg env new sd s in
    let s := dashboard_win rt cfg env new sd s in
    dashboard_baseline new sd s
  end.

(** ** The event loop

    Callbacks run one at a time, in arrival order: a feed update, or a timer
    coming due. *)

Inductive input : Type :=
| DashboardUpdate (env : Env) (new : DashObs)
| ApiUpdate (env : Env) (new : ApiObs)
| TimerDue (env : Env) (h : nat).

Definition step (rt : Runtime) (cfg : Config) (i : input) (s : State) : State :=
  match i with
  | DashboardUpdate env new => dashboard_sensor_change_callback rt cfg env new s
  | ApiUpdate env new => nhl_api_sensor_change_callback rt cfg env new s
  | TimerDue env h => fire_timer rt cfg env h s
  end.

Definition run (rt : Runtime) (cfg : Config) (tr : list input) (s : State) : State :=
  foldl (fun s i => step rt cfg i s) s tr.

(** ** Specification-side definitions *)

(** The number the delay entity yields, if the entity is configured and
    its state is numeric: a numeric object, or a string outside the four
    placeholders that parses as a float. *)
Definition entity_number (rt : Runtime) (cfg : Config) (get_state : pyres pyval)
    : option pyfloat :=
  match broadcast_delay_input_number cfg with
  | None => None
  | Some ent =>
    if String.eqb ent "" then None else
    match get_state with
    | Ok (VBool b) => Some (Fin (if b then 1 else 0)%Q)
    | Ok (VInt z) => Some (Fin (inject_Z z))
    | Ok (VFloat f) => Some f
    | Ok (VStr s) => if placeholder s then None else float_of_str rt s
    | _ => None
    end
  end.

(** A delay in the closed range of 0 to 120 seconds. *)
Definition in_range (d : pyfloat) : Prop :=
  exists q, d = Fin q /\ (0 <= q)%Q /\ (q <= 120)%Q.

(** The resolver as the specification words it: four tiers, the first that
    answers wins. *)
Module Precedence.







End Precedence.

(** ** Reachable states and their invariant *)

Definition reachable (rt : Runtime) (cfg : Config) (s : State) : Prop :=
  exists tr, s = run rt cfg tr initial_state.

(** Handles are drawn from a counter, so every handle in use is below
    [next_handle]; a live timer of the coalescing scheduler is the one
    registered for its event id, and that id has not fired. *)
Record wf (s : State) : Prop := {
  wf_timers : forall h t, timers s !! h = Some t -> (h < next_handle s)%nat;
  wf_event : forall e h, pending_event_timers s !! e = Some h -> (h < next_handle s)%nat;
  wf_sb : forall g h, pending_sb_goal_timers s !! g = Some h -> (h < next_handle s)%nat;
  wf_coalesced : forall h t e ty,
    timers s !! h = Some t -> t_cb t = CoalescedFire e ty ->
    pending_event_timers s !! e = Some h /\ e ∉ fired_event_ids s;
}.

(** Dispatches made for an event id by the coalescing scheduler. *)
Definition dispatch_of (e : string) (em : emission) : bool :=
  match em with
  | GoalDispatched (ViaCoalesced e') _ => String.eqb e' e
  | PenaltyDispatched e' _ => String.eqb e' e
  | _ => false
  end.

Definition dispatches_of (e : string) (l : list emission) : nat :=
  length (List.filter (dispatch_of e) l).


Definition win_dispatch (em : emission) : bool :=
  match em with
  | WinDispatched _ _ => true
  | _ => false
  end.

Definition is_puck_drop (em : emission) : Prop :=
  exists game_id, em = PuckDropDispatched game_id.

(** A step of a callback that neither resets the session nor fires a
    timer: the session counter and the fired log stay, nothing but a puck
    drop is emitted, timers that existed are at most cancelled. *)
Record quiet (s s' : State) : Prop := {
  q_resets : resets s' = resets s;
  q_fired : fired_event_ids s' = fired_event_ids s;
  q_emitted : exists l, emitted s' = emitted s ++ l /\ Forall is_puck_drop l;
  q_next : (next_handle s <= next_handle s')%nat;
  q_old : forall h t, (h < next_handle s)%nat ->
            timers s' !! h = Some t -> timers s !! h = Some t;
  q_wf : wf s -> wf s';
}.

(** What a session reset leaves behind: the logs and registrations are
    empty, the suppression state is cleared, every timer that was registered
    is cancelled, and no timer is added or changed. *)
Record was_reset (s s' : State) : Prop := {
  r_resets : resets s' = S (resets s);
  r_fired : fired_event_ids s' = ∅;
  r_processed : nhl_api_goal_ids_processed s' = ∅;
  r_event_timers : pending_event_timers s' = ∅;
  r_event_payloads : pending_event_payloads s' = ∅;
  r_sb_timers : pending_sb_goal_timers s' = ∅;
  r_suppress_until : sb_goal_suppress_until_ts s' = Fin 0;
  r_sb_last : sb_last_fired_home_away s' = None;
  r_next : next_handle s' = next_handle s;
  r_emitted : emitted s' = emitted s;
  r_old : forall h t, timers s' !! h = Some t -> timers s !! h = Some t;
  r_event_cancelled : forall e h,
    pending_event_timers s !! e = Some h -> timers s' !! h = None;
  r_sb_cancelled : forall g h,
    pending_sb_goal_timers s !! g = Some h -> timers s' !! h = None;
}.

(** ** Schedules that respect the timers

    A trace is well timed when its inputs arrive in time order, a timer
    fires exactly when it comes due ([run_in] time plus delay), and no live
    timer is overdue when an input is processed. *)

Definition due_at (t : timer) : pyfloat := f_add (Fin (t_at t)) (t_delay t).

Definition input_time (i : input) : Q :=
  match i with
  | DashboardUpdate env _ | ApiUpdate env _ | TimerDue env _ => e_now env
  end.

Fixpoint well_timed (rt : Runtime) (cfg : Config) (last : Q) (tr : list input)
    (s : State) : bool :=
  match tr with
  | [] => true
  | i :: tr' =>
    let now := input_time i in
    Qle_bool last now &&
    forallb (fun ht => negb (f_lt (due_at (snd ht)) (Fin now))) (map_to_list (timers s)) &&
    match i with
    | TimerDue _ h =>
      match timers s !! h with
      | Some t => f_eqb (due_at t) (Fin now)
      | None => false
      end
    | _ => true
    end &&
    well_timed rt cfg now tr' (step rt cfg i s)
  end.

(** An emission of the coalescing scheduler for event id [e]. *)
Definition coalesced_emission (e : string) (em : emission) : Prop :=
  (exists ev, em = GoalDispatched (ViaCoalesced e) ev) \/
  (exists ev, em = PenaltyDispatched e ev).



(** ** Sample data for the examples *)

Module Sample.

Definition rt : Runtime :=
  {| float_of_str := fun _ => None;
     int_of_str := fun _ => None;
     text_of := fun _ => "";
     _cleanup_player_display := str_or_empty;
     _parse_scorer_from_last_play := fun _ => "a player";
     _match_goal_detail := fun _ _ _ _ _ => [];
     _match_penalty_detail := fun _ _ _ _ _ _ => [];
     NHL_TEAM_ABBREV_TO_FULL_NAME_MAP := fun _ => None |}.

(** The defaults of [initialize], with a static broadcast delay. *)
Definition cfg (broadcast_delay : Q) : Config :=
  {| goal_event_to_fire := "nhl_goal_event_appdaemon";
     opponent_goal_event_to_fire := None;
     team_win_event_to_fire := "nhl_team_win_event";
     celebrate_win_only_if_home := true;
     coalesce_goal_seconds := Fin 1.3;
     coalesce_penalty_seconds := Fin 2;
     suppress_after_scoreboard_goal_seconds := Fin 5;
     broadcast_delay_input_number := None;
     broadcast_delay_seconds := Fin broadcast_delay |}.

(** Toronto is the selected team; the dashboard snapshot is [snap]. *)
Definition env (now : Q) (snap : option DashObs) : Env :=
  {| e_now := now; e_selected := Some "TOR"; e_delay_state := Ok VNone;
     e_dash := snap; e_is_test := false |}.

(** A dashboard update: Toronto at home against Montreal. *)
Definition dash (game_id : Z) (state : string) (home away : Z)
    (last_event : list (string * pyval)) (last_event_id : option ident)
    : DashObs :=
  {| a_state := state; a_game_id := Some (IdInt game_id);
     a_home_score := Some home; a_away_score := Some away;
     a_home_abbr := Some "TOR"; a_away_abbr := Some "MTL";
     a_last_event := last_event; a_last_event_id := last_event_id;
     a_game_state_api := Some state; a_attrs := ∅ |}.

(** An API update for the same fixture. *)
Definition api (game_id : Z) (state : string) (home away : Z)
    (goal_event_id : option ident) (attrs : gmap string pyval) : ApiObs :=
  {| b_state := Some state; b_old_state := Some state;
     b_game_id := Some (IdInt game_id);
     b_home_abbr := Some "TOR"; b_away_abbr := Some "MTL";
     b_team_abbrev := Some "TOR";
     b_home_score := VInt home; b_away_score := VInt away;
     b_goal_event_id := goal_event_id;
     b_goal_team_abbrev := None; b_goal_team_abbr := None;
     b_goal_tracked_team := VNone; b_attrs := attrs |}.

Definition goal_by (team : string) : list (string * pyval) :=
  [("type", VStr "goal"); ("team", VStr team)].



End Sample.

(** * Properties *)

(** ** Floats and the broadcast delay *)

Lemma Qlt_bool_true a b : Qlt_bool a b = true -> (a < b)%Q.
Proof.
  unfold Qlt_bool. intros H. apply negb_true_iff in H.
  destruct (Qlt_le_dec a b) as [Hlt | Hle]; [exact Hlt |].
  apply Qle_bool_iff in Hle. congruence.
Qed.

Lemma Qlt_bool_false a b : Qlt_bool a b = false -> (b <= a)%Q.
Proof.
  unfold Qlt_bool. intros H. apply negb_false_iff in H.
  by apply Qle_bool_iff.
Qed.

Lemma clamp_in_range x : in_range (clamp x).
Proof.
  unfold in_range, clamp, py_min, py_max.
  destruct x as [q | | |]; simpl.
  - destruct (Qlt_bool q 120) eqn:E1; simpl.
    + destruct (Qlt_bool 0 q) eqn:E2.
      * exists q. apply Qlt_bool_true in E1, E2. split; [done | lra].
      * exists 0%Q. split; [done | lra].
    + exists 120%Q. split; [done | lra].
  - exists 120%Q. split; [done | lra].
  - exists 0%Q. split; [done | lra].
  - exists 120%Q. split; [done | lra].
Qed.

(** Inside the range the clamp keeps the value, below it gives 0, above it
    gives 120. *)
Lemma clamp_finite q :
  exists q', clamp (Fin q) = Fin q' /\
    ((0 <= q)%Q -> (q <= 120)%Q -> (q' == q)%Q) /\
    ((q < 0)%Q -> (q' == 0)%Q) /\
    ((120 < q)%Q -> (q' == 120)%Q).
Proof.
  unfold clamp, py_min, py_max. simpl.
  destruct (Qlt_bool q 120) eqn:E1; simpl.
  - destruct (Qlt_bool 0 q) eqn:E2.
    + exists q. apply Qlt_bool_true in E1, E2. repeat split; intros; lra.
    + exists 0%Q. apply Qlt_bool_true in E1. apply Qlt_bool_false in E2.
      repeat split; intros; lra.
  - exists 120%Q. apply Qlt_bool_false in E1. repeat split; intros; lra.
Qed.

Lemma get_broadcast_delay_eq rt cfg rd :
  _get_broadcast_delay rt cfg rd =
  clamp (default (broadcast_delay_seconds cfg) (entity_number rt cfg rd)).
Proof.
  unfold _get_broadcast_delay, try_entity, entity_number.
  destruct (broadcast_delay_input_number cfg) as [ent |]; [| done].
  destruct (String.eqb ent ""); [done |].
  destruct rd as [[ | b | z | f | s | l | d] |]; try done.
  destruct (placeholder s); simpl; [done |].
  by destruct (float_of_str rt s).
Qed.


(** ** Goal-side resolver *)


(** ** Records, timers and the reset *)

Lemma set_timers_same s : set_timers (timers s) s = s.
Proof. by destruct s. Qed.

Lemma cancel_if_running_eq h s :
  cancel_if_running h s = set_timers (delete h (timers s)) s.
Proof.
  unfold cancel_if_running, timer_running, cancel_timer.
  case_bool_decide as Hl; [done |].
  rewrite delete_id; [by rewrite set_timers_same |].
  by apply eq_None_not_Some.
Qed.

Lemma cancel_all_eq hs s :
  foldr cancel_if_running s hs = set_timers (foldr delete (timers s) hs) s.
Proof.
  induction hs as [| h hs IH]; simpl.
  - by rewrite set_timers_same.
  - rewrite cancel_if_running_eq, IH. by destruct s.
Qed.

Lemma lookup_cancel_all (tm : gmap nat timer) hs h :
  foldr delete tm hs !! h = if bool_decide (h ∈ hs) then None else tm !! h.
Proof.
  induction hs as [| h' hs IH]; simpl.
  - done.
  - destruct (decide (h' = h)) as [-> | Hne].
    + rewrite lookup_delete_eq. by rewrite bool_decide_eq_true_2 by set_solver.
    + rewrite lookup_delete_ne by done. rewrite IH.
      destruct (decide (h ∈ hs)) as [Hin | Hout].
      * rewrite !bool_decide_eq_true_2; [done | | done].
        apply elem_of_cons. by right.
      * rewrite !bool_decide_eq_false_2; [done | | done].
        intros Hc. apply elem_of_cons in Hc as [-> | Hin]; done.
Qed.

Lemma elem_of_handles {K} `{Countable K} (m : gmap K nat) h :
  h ∈ handles m <-> exists k, m !! k = Some h.
Proof.
  unfold handles. rewrite list_elem_of_fmap. split.
  - intros [[k h'] [-> Hin]]. exists k. by apply elem_of_map_to_list.
  - intros [k Hk]. exists (k, h). split; [done |]. by apply elem_of_map_to_list.
Qed.

(** The reset written out field by field. *)
Lemma clear_pending_events_eq s :
  _clear_pending_events s =
  mkState (internal_prev_home_score s) (internal_prev_away_score s)
    (internal_prev_game_id_for_score_tracking s) (internal_prev_last_event_id s)
    (internal_win_fired_game_id s) (internal_start_fired_game_id s)
    ∅ ∅ ∅ ∅ (Fin 0) None ∅
    (foldr delete (foldr delete (timers s) (handles (pending_event_timers s)))
       (handles (pending_sb_goal_timers s)))
    (next_handle s) (emitted s) (S (resets s)).
Proof.
  unfold _clear_pending_events. rewrite !cancel_all_eq. by destruct s.
Qed.



Lemma dashboard_win_frame rt cfg env new sd s :
  pending_sb_goal_timers (dashboard_win rt cfg env new sd s) = pending_sb_goal_timers s /\
  forall h, (h < next_handle s)%nat ->
    timers (dashboard_win rt cfg env new sd s) !! h = timers s !! h.
Proof.
  unfold dashboard_win. repeat case_match; simpl; split; try done.
  intros h Hh. rewrite lookup_insert_ne; [done | lia].
Qed.

Lemma dashboard_baseline_frame new sd s :
  pending_sb_goal_timers (dashboard_baseline new sd s) = pending_sb_goal_timers s /\
  timers (dashboard_baseline new sd s) = timers s.
Proof. unfold dashboard_baseline. by repeat case_match. Qed.





(** ** Scheduling onto a pending event *)

(** C3 (as amended). A schedule call for an event id that is not fired and
    already has a pending timer stores the new payload in place of the
    draft, whole (nothing of the older draft is kept), and leaves the timer
    table, the registered handle and hence the fire deadline as they
    were. *)
Theorem schedule_pending_replaces_draft (now : Q) (event_id event_type : string)
    (payload : gmap string pyval) (delay : pyfloat) (s : State) (h : nat) :
  event_id ∉ fired_event_ids s ->
  pending_event_timers s !! event_id = Some h ->
  let s' := _schedule_event_coalesced now event_id event_type payload delay s in
  s' = set_event_payloads (<[event_id := payload]> (pending_event_payloads s)) s /\
  pending_event_payloads s' !! event_id = Some payload /\
  timers s' = timers s /\
  pending_event_timers s' = pending_event_timers s.
Proof.
  intros Hnf Hp. simpl. unfold _schedule_event_coalesced.
  rewrite bool_decide_eq_false_2 by done. simpl. rewrite Hp.
  repeat split. simpl. by rewrite lookup_insert_eq.
Qed.

Lemma schedule_pending_replaces_draft_witness :
  let s := _schedule_event_coalesced 0 "55" "goal" {["assists" := VList [VStr "Marner"]]}
             (Fin 1.3) initial_state in
  let s' := _schedule_event_coalesced 1 "55" "goal" {["period_ord" := VStr "2nd"]}
              (Fin 1.3) s in
  s' = set_event_payloads
         (<["55" := {["period_ord" := VStr "2nd"]}]> (pending_event_payloads s)) s /\
  pending_event_payloads s' !! "55" = Some {["period_ord" := VStr "2nd"]} /\
  timers s' = timers s /\
  pending_event_timers s' = pending_event_timers s.
Proof.
  intros s s'.
  exact (schedule_pending_replaces_draft 1 "55" "goal" {["period_ord" := VStr "2nd"]}
           (Fin 1.3) s 0%nat ltac:(vm_compute; set_solver) eq_refl).
Defined.

(** C3, counterexample.  The API bridge schedules goal 55 with an assist;
    half a second later the dashboard reports the same event, and its
    payload has no "assists" key.  The stored draft then has no assists
    either: the field absent from the newer payload did not keep its value.
    The timer is untouched. *)
Lemma schedule_drops_absent_fields :
  let cfg := Sample.cfg 0 in
  let api_attrs : gmap string pyval :=
    {["scoring_player_name" := VStr "Matthews"; "assist1_player_name" := VStr "Marner"]} in
  let s1 := run Sample.rt cfg
              [ApiUpdate (Sample.env 0 None)
                 (Sample.api 7 "LIVE" 2 1 (Some (IdInt 55)) api_attrs)]
              initial_state in
  let new := Sample.dash 7 "LIVE" 2 1 (Sample.goal_by "TOR") (Some (IdInt 55)) in
  let s2 := step Sample.rt cfg (DashboardUpdate (Sample.env 0.5 None) new) s1 in
  (pending_event_payloads s1 !! "55" ≫= (fun p => p !! "assists"))
    = Some (VList [VStr "Marner"]) /\
  (pending_event_payloads s2 !! "55" ≫= (fun p => p !! "assists")) = None /\
  timers s2 = timers s1.
Proof. vm_compute. repeat split; reflexivity. Qed.

(** ** Quiet steps *)

Lemma quiet_refl s : quiet s s.
Proof.
  constructor; try done. exists []. by rewrite app_nil_r.
Qed.

Lemma quiet_trans s1 s2 s3 : quiet s1 s2 -> quiet s2 s3 -> quiet s1 s3.
Proof.
  intros [R1 F1 (l1 & E1 & P1) N1 O1 W1] [R2 F2 (l2 & E2 & P2) N2 O2 W2].
  constructor.
  - congruence.
  - congruence.
  - exists (l1 ++ l2). rewrite E2, E1, app_assoc. split; [done |].
    by apply Forall_app.
  - lia.
  - intros h t Hh Ht. apply O1; [done |]. apply O2; [lia | done].
  - auto.
Qed.

(** A step that leaves the timer table, the registrations, the fired log,
    the session counter and the emitted events alone is quiet. *)
Lemma quiet_frame s s' :
  timers s' = timers s -> next_handle s' = next_handle s ->
  pending_event_timers s' = pending_event_timers s ->
  pending_sb_goal_timers s' = pending_sb_goal_timers s ->
  fired_event_ids s' = fired_event_ids s ->
  resets s' = resets s -> emitted s' = emitted s ->
  quiet s s'.
Proof.
  intros Ht Hn He Hs Hf Hr Hem. constructor; try done.
  - exists []. by rewrite app_nil_r.
  - lia.
  - intros h t _. by rewrite Ht.
  - intros [W1 W2 W3 W4]. constructor; rewrite ?Ht, ?Hn, ?He, ?Hs, ?Hf; done.
Qed.

Ltac frame := apply quiet_frame; reflexivity.

Lemma wf_delete_timer h s :
  wf s -> wf (set_timers (delete h (timers s)) s).
Proof.
  intros [W1 W2 W3 W4]. constructor; simpl; try done.
  - intros h' t Hl. apply lookup_delete_Some in Hl as [_ Hl]. eauto.
  - intros h' t e ty Hl Hcb. apply lookup_delete_Some in Hl as [_ Hl]. eauto.
Qed.

Lemma quiet_cancel_if_running h s : quiet s (cancel_if_running h s).
Proof.
  rewrite cancel_if_running_eq. constructor; simpl; try done.
  - exists []. by rewrite app_nil_r.
  - intros h' t _ Hl. by apply lookup_delete_Some in Hl as [_ Hl].
  - apply wf_delete_timer.
Qed.

Lemma quiet_cancel_scoreboard_fallback g s :
  quiet s (cancel_scoreboard_fallback g s).
Proof.
  unfold cancel_scoreboard_fallback.
  destruct (pending_sb_goal_timers s !! g) as [h |] eqn:Hg; [| apply quiet_refl].
  eapply quiet_trans; [| apply quiet_cancel_if_running].
  constructor; simpl; try done.
  - exists []. by rewrite app_nil_r.
  - intros [W1 W2 W3 W4]. constructor; simpl; try done.
    intros g' h' Hl. apply lookup_delete_Some in Hl as [_ Hl]. eauto.
Qed.

Lemma quiet_schedule_event_coalesced now e ty payload delay s :
  quiet s (_schedule_event_coalesced now e ty payload delay s).
Proof.
  unfold _schedule_event_coalesced.
  case_bool_decide as Hf; [apply quiet_refl |]. simpl.
  destruct (pending_event_timers s !! e) as [h |] eqn:He; [frame |].
  constructor; simpl; try done.
  - exists []. by rewrite app_nil_r.
  - lia.
  - intros h t Hh Hl. rewrite lookup_insert_ne in Hl; [done | lia].
  - intros [W1 W2 W3 W4]. constructor; simpl.
    + intros h t Hl. apply lookup_insert_Some in Hl as [[<- _] | [_ Hl]]; [lia |].
      apply W1 in Hl. lia.
    + intros e' h Hl. apply lookup_insert_Some in Hl as [[_ <-] | [_ Hl]]; [lia |].
      apply W2 in Hl. lia.
    + intros g h Hl. apply W3 in Hl. lia.
    + intros h t e' ty' Hl Hcb.
      apply lookup_insert_Some in Hl as [[<- <-] | [Hne Hl]].
      * simpl in Hcb. injection Hcb as <- <-. by rewrite lookup_insert_eq.
      * destruct (W4 _ _ _ _ Hl Hcb) as [Hreg Hnf]. split; [| done].
        rewrite lookup_insert_ne; [done |]. intros <-. congruence.
Qed.

(** [run_in] of a callback other than the coalesced one. *)
Lemma quiet_run_in now cb delay s :
  (forall e ty, cb <> CoalescedFire e ty) ->
  quiet s (snd (run_in now cb delay s)).
Proof.
  intros Hcb. constructor; simpl; try done.
  - exists []. by rewrite app_nil_r.
  - lia.
  - intros h t Hh Hl. rewrite lookup_insert_ne in Hl; [done | lia].
  - intros [W1 W2 W3 W4]. constructor; simpl.
    + intros h t Hl. apply lookup_insert_Some in Hl as [[<- _] | [_ Hl]]; [lia |].
      apply W1 in Hl. lia.
    + intros e' h Hl. apply W2 in Hl. lia.
    + intros g h Hl. apply W3 in Hl. lia.
    + intros h t e' ty' Hl Hc.
      apply lookup_insert_Some in Hl as [[<- <-] | [Hne Hl]]; [| eauto].
      simpl in Hc. by destruct (Hcb e' ty').
Qed.

Lemma quiet_schedule_fallback rt cfg env new sd kind s :
  quiet s (schedule_fallback rt cfg env new sd kind s).
Proof.
  unfold schedule_fallback.
  pose proof (quiet_run_in (e_now env) (ScoreboardFire (fallback_kwargs rt new sd kind))
                (broadcast_only_delay rt cfg env) s ltac:(done)) as Hq.
  destruct (run_in _ _ _ s) as [h s1] eqn:Hr. simpl in Hq.
  assert (Hh : (h < next_handle s1)%nat).
  { unfold run_in in Hr. injection Hr as <- <-. simpl. lia. }
  eapply quiet_trans; [exact Hq |].
  constructor; simpl; try done.
  - exists []. by rewrite app_nil_r.
  - intros [W1 W2 W3 W4]. constructor; simpl; try done.
    intros g h' Hl. apply lookup_insert_Some in Hl as [[_ <-] | [_ Hl]]; eauto.
Qed.

Lemma quiet_dashboard_fallback rt cfg env new sd s :
  quiet s (dashboard_fallback rt cfg env new sd s).
Proof.
  unfold dashboard_fallback.
  repeat case_match; try apply quiet_refl; apply quiet_schedule_fallback.
Qed.

Lemma quiet_dashboard_win rt cfg env new sd s :
  quiet s (dashboard_win rt cfg env new sd s).
Proof.
  unfold dashboard_win.
  repeat case_match; try apply quiet_refl; by apply quiet_run_in.
Qed.

Lemma quiet_process_nhl_api_win rt cfg env context s :
  quiet s (_process_nhl_api_win rt cfg env context s).
Proof.
  unfold _process_nhl_api_win.
  repeat case_match; try apply quiet_refl; by apply quiet_run_in.
Qed.

Lemma quiet_dashboard_baseline new sd s : quiet s (dashboard_baseline new sd s).
Proof.
  unfold dashboard_baseline. repeat case_match; try apply quiet_refl. frame.
Qed.

Lemma quiet_dashboard_event rt cfg env new sd s :
  quiet s (dashboard_event rt cfg env new sd s).1.
Proof.
  unfold dashboard_event.
  repeat match goal with
         | |- context [if ?c then _ else _] => destruct c
         end; simpl; try apply quiet_refl.
  - eapply quiet_trans; [apply quiet_cancel_scoreboard_fallback |].
    apply quiet_schedule_event_coalesced.
  - apply quiet_schedule_event_coalesced.
Qed.

Lemma quiet_fire_puck_drop context s : quiet s (_fire_puck_drop context s).
Proof.
  unfold _fire_puck_drop. case_match; [apply quiet_refl |].
  constructor; simpl; try done.
  - exists [PuckDropDispatched (c_game_id context)]. split; [done |].
    constructor; [by eexists | done].
  - intros [W1 W2 W3 W4]. by constructor.
Qed.

Lemma quiet_api_goal rt cfg env new context gid s :
  quiet s (api_goal rt cfg env new context gid s).
Proof.
  unfold api_goal. case_bool_decide; [apply quiet_refl |].
  set (s1 := cancel_scoreboard_fallback _ s).
  set (s2 := set_suppress_until _ (set_sb_last _ s1)).
  set (s3 := _schedule_event_coalesced _ _ _ _ _ s2).
  apply (quiet_trans _ s1); [apply quiet_cancel_scoreboard_fallback |].
  apply (quiet_trans _ s2); [frame |].
  apply (quiet_trans _ s3); [apply quiet_schedule_event_coalesced | frame].
Qed.

(** ** The session reset *)

Lemma clear_pending_events_reset s : was_reset s (_clear_pending_events s).
Proof.
  rewrite clear_pending_events_eq. constructor; simpl; try done.
  - intros h t. rewrite !lookup_cancel_all. by repeat case_bool_decide.
  - intros e h He. rewrite !lookup_cancel_all. case_bool_decide; [done |].
    rewrite bool_decide_eq_true_2; [done |]. apply elem_of_handles. eauto.
  - intros g h Hg. rewrite !lookup_cancel_all.
    rewrite bool_decide_eq_true_2; [done |]. apply elem_of_handles. eauto.
Qed.

(** Setting the trackers that the reset blocks assign afterwards keeps
    what the reset established. *)
Lemma was_reset_frame s s1 s2 :
  was_reset s s1 ->
  timers s2 = timers s1 -> next_handle s2 = next_handle s1 ->
  pending_event_timers s2 = pending_event_timers s1 ->
  pending_event_payloads s2 = pending_event_payloads s1 ->
  pending_sb_goal_timers s2 = pending_sb_goal_timers s1 ->
  fired_event_ids s2 = fired_event_ids s1 ->
  nhl_api_goal_ids_processed s2 = nhl_api_goal_ids_processed s1 ->
  sb_goal_suppress_until_ts s2 = sb_goal_suppress_until_ts s1 ->
  sb_last_fired_home_away s2 = sb_last_fired_home_away s1 ->
  resets s2 = resets s1 -> emitted s2 = emitted s1 ->
  was_reset s s2.
Proof.
  intros [] E1 E2 E3 E4 E5 E6 E7 E8 E9 E10 E11.
  constructor; rewrite ?E1, ?E2, ?E3, ?E4, ?E5, ?E6, ?E7, ?E8, ?E9, ?E10, ?E11; done.
Qed.

Lemma was_reset_wf s s' : wf s -> was_reset s s' -> wf s'.
Proof.
  intros [W1 W2 W3 W4] R. constructor.
  - intros h t Hl. rewrite (r_next _ _ R). apply (r_old _ _ R) in Hl. eauto.
  - intros e h. by rewrite (r_event_timers _ _ R), lookup_empty.
  - intros g h. by rewrite (r_sb_timers _ _ R), lookup_empty.
  - intros h t e ty Hl Hcb. pose proof (r_old _ _ R _ _ Hl) as Hl0.
    destruct (W4 _ _ _ _ Hl0 Hcb) as [Hreg _].
    rewrite (r_event_cancelled _ _ R _ _ Hreg) in Hl. done.
Qed.

Lemma reset_trackers_reset game_id s : was_reset s (reset_trackers game_id s).
Proof.
  unfold reset_trackers.
  pose proof (clear_pending_events_reset s) as R.
  revert R. generalize (_clear_pending_events s). intros s1 R.
  by apply (was_reset_frame s s1).
Qed.

Lemma dashboard_session_cases env new s :
  dashboard_session env new s = s \/ was_reset s (dashboard_session env new s).
Proof.
  unfold dashboard_session.
  repeat match goal with
         | |- context [if ?c then _ else _] => destruct c
         end; [right | right | by left];
    pose proof (clear_pending_events_reset s) as R;
    revert R; generalize (_clear_pending_events s); intros s1 R;
    by apply (was_reset_frame s s1).
Qed.

(** ** The callbacks as a reset followed by quiet steps *)

Lemma dashboard_callback_after_session rt cfg env new s :
  a_state new <> "unavailable" ->
  quiet (dashboard_session env new s)
    (dashboard_sensor_change_callback rt cfg env new s).
Proof.
  intros Hst. unfold dashboard_sensor_change_callback.
  apply String.eqb_neq in Hst. rewrite Hst.
  set (s1 := dashboard_session env new s).
  destruct (dashboard_side env new s1) as [sd |]; [| apply quiet_refl].
  pose proof (quiet_dashboard_event rt cfg env new sd s1) as Hev.
  destruct (dashboard_event rt cfg env new sd s1) as [s2 scheduled]. simpl in Hev.
  set (s3 := if scheduled then s2 else dashboard_fallback rt cfg env new sd s2).
  assert (quiet s2 s3) as H23.
  { unfold s3. destruct scheduled; [apply quiet_refl | apply quiet_dashboard_fallback]. }
  apply (quiet_trans _ s2); [done |].
  apply (quiet_trans _ s3); [done |].
  eapply quiet_trans; [apply quiet_dashboard_win | apply quiet_dashboard_baseline].
Qed.

Lemma dashboard_callback_unavailable rt cfg env new s :
  a_state new = "unavailable" ->
  dashboard_sensor_change_callback rt cfg env new s = s.
Proof. intros Hst. unfold dashboard_sensor_change_callback. by rewrite Hst. Qed.

Lemma api_session_cases context s :
  api_session context s = s \/ was_reset s (api_session context s).
Proof.
  unfold api_session. case_match; [right | by left]. apply reset_trackers_reset.
Qed.

Lemma api_observe_after_session rt cfg env state new context s :
  quiet (api_session context s) (api_observe rt cfg env state new context s).
Proof.
  unfold api_observe. fold (api_session context s).
  set (s1 := api_session context s).
  set (s2 := if _ : bool then _fire_puck_drop context s1 else s1).
  assert (quiet s1 s2) as H12.
  { unfold s2. case_match; [apply quiet_fire_puck_drop | apply quiet_refl]. }
  set (s3 := set_prev_away _ (set_prev_home _ s2)).
  assert (quiet s2 s3) as H23 by frame.
  set (s4 := match b_goal_event_id new with Some _ => _ | None => _ end).
  assert (quiet s3 s4) as H34.
  { unfold s4. repeat case_match; try apply quiet_refl. apply quiet_api_goal. }
  apply (quiet_trans _ s2); [done |].
  apply (quiet_trans _ s3); [done |].
  apply (quiet_trans _ s4); [done |].
  case_match; [apply quiet_process_nhl_api_win | apply quiet_refl].
Qed.

(** ** Timer firings *)

Lemma coalesced_fire_goal_cases rt cfg now e payload s :
  _coalesced_fire_goal rt cfg now e payload s = Raised \/
  _coalesced_fire_goal rt cfg now e payload s = Ok s \/
  exists ev, _coalesced_fire_goal rt cfg now e payload s =
             Ok (emit (GoalDispatched (ViaCoalesced e) ev) s).
Proof.
  unfold _coalesced_fire_goal.
  destruct (suppressed_by_scoreboard rt now payload s); [by right; left |].
  match goal with
  | |- context [if ?c then _ else _] => destruct c
  end; [right; right; by eexists | by left].
Qed.

Lemma coalesced_fire_callback_spec rt cfg env e ty s :
  let s' := _coalesced_fire_callback rt cfg env e ty s in
  resets s' = resets s /\ next_handle s' = next_handle s /\
  pending_sb_goal_timers s' = pending_sb_goal_timers s /\
  (forall h t, timers s' !! h = Some t -> timers s !! h = Some t) /\
  ((fired_event_ids s' = fired_event_ids s /\ emitted s' = emitted s /\
    pending_event_timers s' = pending_event_timers s /\ timers s' = timers s)
   \/
   (fired_event_ids s' = {[e]} ∪ fired_event_ids s /\
    pending_event_timers s' = delete e (pending_event_timers s) /\
    pending_event_payloads s' !! e = None /\
    (emitted s' = emitted s \/
     exists em, emitted s' = emitted s ++ [em] /\ coalesced_emission e em))).
Proof.
  simpl. unfold _coalesced_fire_callback.
  set (payload := fire_payload rt env e s).
  set (sa := match pending_event_payloads s !! e with
             | Some stored => _
             | None => s
             end).
  assert (Hsa : resets sa = resets s /\ next_handle sa = next_handle s /\
                pending_sb_goal_timers sa = pending_sb_goal_timers s /\
                timers sa = timers s /\ fired_event_ids sa = fired_event_ids s /\
                emitted sa = emitted s /\
                pending_event_timers sa = pending_event_timers s).
  { unfold sa. destruct (pending_event_payloads s !! e); [| done].
    by case_bool_decide. }
  destruct Hsa as (A1 & A2 & A3 & A4 & A5 & A6 & A7).
  set (r := if String.eqb (lower ty) "goal" then _ else _).
  assert (Hr : r = Raised \/ r = Ok sa \/
               exists em, r = Ok (emit em sa) /\ coalesced_emission e em).
  { unfold r. destruct (String.eqb (lower ty) "goal").
    - destruct (coalesced_fire_goal_cases rt cfg (e_now env) e payload sa)
        as [-> | [-> | [ev ->]]]; [by left | by right; left |].
      right; right. eexists. split; [done |]. left. by eexists.
    - destruct (String.eqb (lower ty) "penalty"); [| by right; left].
      right; right. eexists. split; [done |]. right. by eexists. }
  destruct Hr as [-> | Hok].
  - rewrite A1, A2, A3, A4, A5, A6, A7. repeat split; try done. by left.
  - assert (exists s1, r = Ok s1 /\ resets s1 = resets s /\
              next_handle s1 = next_handle s /\
              pending_sb_goal_timers s1 = pending_sb_goal_timers s /\
              timers s1 = timers s /\ fired_event_ids s1 = fired_event_ids s /\
              pending_event_timers s1 = pending_event_timers s /\
              (emitted s1 = emitted s \/
               exists em, emitted s1 = emitted s ++ [em] /\ coalesced_emission e em))
      as (s1 & -> & B1 & B2 & B3 & B4 & B5 & B7 & B6).
    { destruct Hok as [-> | (em & -> & Hem)].
      - exists sa. repeat split; try done. by left.
      - exists (emit em sa). simpl. repeat split; try done.
        right. exists em. by rewrite A6. }
    simpl. rewrite B7.
    destruct (pending_event_timers s !! e) as [h |] eqn:He.
    + rewrite cancel_if_running_eq. simpl. rewrite B1, B2, B3, B4, B5.
      do 3 (split; [done |]). split.
      * intros h' t Hl. by apply lookup_delete_Some in Hl as [_ Hl].
      * right. do 2 (split; [done |]). split; [apply lookup_delete_eq | done].
    + simpl. rewrite B1, B2, B3, B4, B5.
      do 3 (split; [done |]). split; [done |].
      right. split; [done |]. split; [by rewrite delete_id |].
      split; [apply lookup_delete_eq | done].
Qed.

Lemma wf_ext s s' :
  timers s' = timers s -> next_handle s' = next_handle s ->
  pending_event_timers s' = pending_event_timers s ->
  pending_sb_goal_timers s' = pending_sb_goal_timers s ->
  fired_event_ids s' = fired_event_ids s ->
  wf s -> wf s'.
Proof.
  intros Ht Hn He Hs Hf [W1 W2 W3 W4].
  constructor; rewrite ?Ht, ?Hn, ?He, ?Hs, ?Hf; done.
Qed.

Lemma dispatches_of_app e l1 l2 :
  dispatches_of e (l1 ++ l2) = (dispatches_of e l1 + dispatches_of e l2)%nat.
Proof. unfold dispatches_of. by rewrite List.filter_app, length_app. Qed.

Lemma dispatches_of_coalesced e e0 em :
  coalesced_emission e0 em ->
  dispatches_of e [em] = if String.eqb e0 e then 1%nat else 0%nat.
Proof.
  unfold dispatches_of. intros [[ev ->] | [ev ->]]; simpl;
    by destruct (String.eqb e0 e).
Qed.

Lemma dispatches_of_puck_drops e l :
  Forall is_puck_drop l -> dispatches_of e l = 0%nat.
Proof.
  unfold dispatches_of. induction 1 as [| em l [g ->] _ IH]; [done |].
  simpl. exact IH.
Qed.

(** What a timer coming due does to the invariant, the session and the
    dispatch count of any event id: the count stays, or it goes up by one
    for an id that was not fired before and is fired afterwards. *)
Lemma fire_timer_spec rt cfg env h s :
  wf s ->
  let s' := fire_timer rt cfg env h s in
  wf s' /\ resets s' = resets s /\ next_handle s' = next_handle s /\
  fired_event_ids s ⊆ fired_event_ids s' /\
  (forall h' t, timers s' !! h' = Some t -> timers s !! h' = Some t) /\
  timers s' !! h = None /\
  forall e,
    dispatches_of e (emitted s') = dispatches_of e (emitted s) \/
    ((e ∉ fired_event_ids s) /\ (e ∈ fired_event_ids s') /\
     dispatches_of e (emitted s') = S (dispatches_of e (emitted s))).
Proof.
  intros Hwf. simpl. unfold fire_timer.
  destruct (timers s !! h) as [t |] eqn:Hh.
  2: { split_and!; [done .. |]. intros e. by left. }
  set (sd := set_timers (delete h (timers s)) s).
  assert (Hwd : wf sd) by (by apply wf_delete_timer).
  assert (Hd : forall h' t', timers sd !! h' = Some t' -> timers s !! h' = Some t').
  { intros h' t' Hl. simpl in Hl. by apply lookup_delete_Some in Hl as [_ Hl]. }
  assert (Hdh : timers sd !! h = None) by (simpl; apply lookup_delete_eq).
  destruct (t_cb t) as [e0 ty | kw | ev] eqn:Hcb.
  - destruct (wf_coalesced _ Hwf _ _ _ _ Hh Hcb) as [Hreg Hnf].
    destruct (coalesced_fire_callback_spec rt cfg env e0 ty sd)
      as (R1 & R2 & R3 & R4 & Hcase).
    set (s' := _coalesced_fire_callback rt cfg env e0 ty sd) in *.
    assert (Hlive : timers s' !! h = None).
    { destruct (timers s' !! h) as [t' |] eqn:Hl; [| done].
      apply R4 in Hl. congruence. }
    destruct Hcase as [(C1 & C2 & C3 & C4) | (C1 & C2 & C3 & C4)].
    + split_and!; [by apply (wf_ext sd) | done | done | by rewrite C1 | eauto | done |].
      intros e. left. by rewrite C2.
    + split_and!; [| done | done | rewrite C1; set_solver | eauto | done |].
      * destruct Hwd as [W1 W2 W3 W4]. constructor.
        -- intros h' t' Hl. rewrite R2. eauto.
        -- intros e h'. rewrite C2, R2. intros Hl.
           apply lookup_delete_Some in Hl as [_ Hl]. eauto.
        -- intros g h'. rewrite R3, R2. eauto.
        -- intros h' t' e ty' Hl Hc. pose proof (R4 _ _ Hl) as Hl0.
           destruct (W4 _ _ _ _ Hl0 Hc) as [Hr Hn].
           assert (e <> e0) as Hne.
           { intros ->. simpl in Hr. rewrite Hreg in Hr. injection Hr as <-.
             congruence. }
           rewrite C1, C2. split; [by rewrite lookup_delete_ne | set_solver].
      * intros e. destruct C4 as [-> | (em & -> & Hem)]; [by left |].
        rewrite dispatches_of_app, (dispatches_of_coalesced e e0 em Hem).
        destruct (String.eqb e0 e) eqn:Ee; [| left; simpl; lia].
        apply String.eqb_eq in Ee as <-. right.
        split; [done |]. split; [rewrite C1; set_solver | simpl; lia].
  - unfold _scoreboard_goal_fire_wrapper. simpl.
    split_and!; [| done | done | done | exact Hd | apply lookup_delete_eq |].
    + destruct Hwd as [W1 W2 W3 W4]. constructor; simpl; try done.
      intros g h' Hl. apply lookup_delete_Some in Hl as [_ Hl]. eauto.
    + intros e. left. by rewrite dispatches_of_app, Nat.add_0_r.
  - unfold _fire_win. simpl.
    split_and!; [by destruct Hwd | done | done | done | exact Hd
                | apply lookup_delete_eq |].
    intros e. left. by rewrite dispatches_of_app, Nat.add_0_r.
Qed.

(** ** The invariant holds in every reachable state *)

Lemma wf_initial : wf initial_state.
Proof. by constructor. Qed.

Lemma wf_dashboard_callback rt cfg env new s :
  wf s -> wf (dashboard_sensor_change_callback rt cfg env new s).
Proof.
  intros Hwf. destruct (decide (a_state new = "unavailable")) as [Hst | Hst].
  - by rewrite dashboard_callback_unavailable.
  - apply (q_wf _ _ (dashboard_callback_after_session rt cfg env new s Hst)).
    destruct (dashboard_session_cases env new s) as [-> | R]; [done |].
    by apply (was_reset_wf s).
Qed.

Lemma wf_api_callback rt cfg env new s :
  wf s -> wf (nhl_api_sensor_change_callback rt cfg env new s).
Proof.
  intros Hwf. unfold nhl_api_sensor_change_callback.
  destruct (api_context rt env new) as [[state context] |]; [| done].
  apply (q_wf _ _ (api_observe_after_session rt cfg env state new context s)).
  destruct (api_session_cases context s) as [-> | R]; [done |].
  by apply (was_reset_wf s).
Qed.

Lemma wf_step rt cfg i s : wf s -> wf (step rt cfg i s).
Proof.
  intros Hwf. destruct i as [env new | env new | env h]; simpl.
  - by apply wf_dashboard_callback.
  - by apply wf_api_callback.
  - by apply fire_timer_spec.
Qed.

Lemma wf_run rt cfg tr s : wf s -> wf (run rt cfg tr s).
Proof.
  revert s. induction tr as [| i tr IH]; intros s Hwf; [done |].
  simpl. apply IH. by apply wf_step.
Qed.

Lemma reachable_wf rt cfg s : reachable rt cfg s -> wf s.
Proof. intros [tr ->]. apply wf_run, wf_initial. Qed.

(** ** At most one dispatch per event id and session *)

Lemma dashboard_callback_session rt cfg env new s :
  let s' := dashboard_sensor_change_callback rt cfg env new s in
  (resets s <= resets s')%nat /\
  (resets s' = resets s -> fired_event_ids s' = fired_event_ids s) /\
  forall e, dispatches_of e (emitted s') = dispatches_of e (emitted s).
Proof.
  simpl. destruct (decide (a_state new = "unavailable")) as [Hst | Hst].
  { by rewrite dashboard_callback_unavailable. }
  destruct (dashboard_callback_after_session rt cfg env new s Hst)
    as [Q1 Q2 (l & Q3 & Q4) _ _ _].
  rewrite Q1, Q2, Q3.
  assert (forall e, dispatches_of e (emitted (dashboard_session env new s) ++ l) =
                    dispatches_of e (emitted (dashboard_session env new s))) as Hd.
  { intros e. rewrite dispatches_of_app, (dispatches_of_puck_drops e l Q4). lia. }
  destruct (dashboard_session_cases env new s) as [Hs | R].
  - rewrite Hs in *. by split_and!.
  - split_and!.
    + rewrite (r_resets _ _ R). lia.
    + rewrite (r_resets _ _ R). lia.
    + intros e. by rewrite Hd, (r_emitted _ _ R).
Qed.

Lemma api_callback_session rt cfg env new s :
  let s' := nhl_api_sensor_change_callback rt cfg env new s in
  (resets s <= resets s')%nat /\
  (resets s' = resets s -> fired_event_ids s' = fired_event_ids s) /\
  forall e, dispatches_of e (emitted s') = dispatches_of e (emitted s).
Proof.
  simpl. unfold nhl_api_sensor_change_callback.
  destruct (api_context rt env new) as [[state context] |]; [| done].
  destruct (api_observe_after_session rt cfg env state new context s)
    as [Q1 Q2 (l & Q3 & Q4) _ _ _].
  rewrite Q1, Q2, Q3.
  assert (forall e, dispatches_of e (emitted (api_session context s) ++ l) =
                    dispatches_of e (emitted (api_session context s))) as Hd.
  { intros e. rewrite dispatches_of_app, (dispatches_of_puck_drops e l Q4). lia. }
  destruct (api_session_cases context s) as [Hs | R].
  - rewrite Hs in *. by split_and!.
  - split_and!.
    + rewrite (r_resets _ _ R). lia.
    + rewrite (r_resets _ _ R). lia.
    + intros e. by rewrite Hd, (r_emitted _ _ R).
Qed.

(** One step inside a session: the dispatch count of an event id stays, or
    it rises by one while the id enters the fired log. *)
Lemma step_session rt cfg i s e :
  wf s ->
  let s' := step rt cfg i s in
  (resets s <= resets s')%nat /\
  (resets s' = resets s ->
   fired_event_ids s ⊆ fired_event_ids s' /\
   (dispatches_of e (emitted s') = dispatches_of e (emitted s) \/
    ((e ∉ fired_event_ids s) /\ (e ∈ fired_event_ids s') /\
     dispatches_of e (emitted s') = S (dispatches_of e (emitted s))))).
Proof.
  intros Hwf. destruct i as [env new | env new | env h]; simpl.
  - destruct (dashboard_callback_session rt cfg env new s) as (H1 & H2 & H3).
    split; [done |]. intros Hr. rewrite (H2 Hr). split; [done | by left].
  - destruct (api_callback_session rt cfg env new s) as (H1 & H2 & H3).
    split; [done |]. intros Hr. rewrite (H2 Hr). split; [done | by left].
  - destruct (fire_timer_spec rt cfg env h s Hwf) as (_ & H1 & _ & H2 & _ & _ & H3).
    split; [lia |]. intros _. split; [done | apply H3].
Qed.

Lemma resets_run_mono rt cfg tr s :
  wf s -> (resets s <= resets (run rt cfg tr s))%nat.
Proof.
  revert s. induction tr as [| i tr IH]; intros s Hwf; [done |].
  simpl. pose proof (proj1 (step_session rt cfg i s "" Hwf)) as H1.
  pose proof (IH _ (wf_step rt cfg i s Hwf)). simpl in H1. lia.
Qed.

Lemma session_dispatches rt cfg tr s e :
  wf s -> resets (run rt cfg tr s) = resets s ->
  (dispatches_of e (emitted (run rt cfg tr s)) = dispatches_of e (emitted s) \/
   ((e ∈ fired_event_ids (run rt cfg tr s)) /\
    dispatches_of e (emitted (run rt cfg tr s)) = S (dispatches_of e (emitted s)))) /\
  (e ∈ fired_event_ids s ->
   (e ∈ fired_event_ids (run rt cfg tr s)) /\
   dispatches_of e (emitted (run rt cfg tr s)) = dispatches_of e (emitted s)).
Proof.
  revert s. induction tr as [| i tr IH]; intros s Hwf Hr.
  { simpl. split; [by left | done]. }
  simpl in *.
  destruct (step_session rt cfg i s e Hwf) as [Hm Hstep]. simpl in Hm, Hstep.
  pose proof (wf_step rt cfg i s Hwf) as Hwf'.
  pose proof (resets_run_mono rt cfg tr _ Hwf') as Hm'.
  assert (Hr1 : resets (step rt cfg i s) = resets s) by lia.
  assert (Hr2 : resets (run rt cfg tr (step rt cfg i s)) = resets (step rt cfg i s))
    by lia.
  destruct (Hstep Hr1) as [Hsub Hcount].
  destruct (IH _ Hwf' Hr2) as [IH1 IH2].
  destruct Hcount as [Hsame | (Hnf & Hf & Hup)].
  - rewrite Hsame in IH1, IH2. split; [exact IH1 |].
    intros Hin. apply IH2. set_solver.
  - split; [| done].
    right. destruct (IH2 Hf) as [Hin Heq]. split; [done | lia].
Qed.

Lemma schedule_fired_noop now e ty p d s :
  e ∈ fired_event_ids s -> _schedule_event_coalesced now e ty p d s = s.
Proof.
  intros Hf. unfold _schedule_event_coalesced. by rewrite bool_decide_eq_true_2.
Qed.

Lemma coalesced_timer_unique s e h1 h2 t1 t2 ty1 ty2 :
  wf s ->
  timers s !! h1 = Some t1 -> t_cb t1 = CoalescedFire e ty1 ->
  timers s !! h2 = Some t2 -> t_cb t2 = CoalescedFire e ty2 ->
  h1 = h2.
Proof.
  intros Hwf H1 C1 H2 C2.
  destruct (wf_coalesced _ Hwf _ _ _ _ H1 C1) as [R1 _].
  destruct (wf_coalesced _ Hwf _ _ _ _ H2 C2) as [R2 _].
  congruence.
Qed.

Lemma fire_coalesced_timer rt cfg env s h t e ty :
  wf s -> timers s !! h = Some t -> t_cb t = CoalescedFire e ty ->
  let s' := fire_timer rt cfg env h s in
  ((e ∈ fired_event_ids s') \/
   (emitted s' = emitted s /\ pending_event_timers s' !! e = Some h)) /\
  (forall h' t' ty', timers s' !! h' = Some t' -> t_cb t' <> CoalescedFire e ty') /\
  (forall now ty' p d, timers (_schedule_event_coalesced now e ty' p d s') = timers s').
Proof.
  intros Hwf Hh Hcb.
  destruct (fire_timer_spec rt cfg env h s Hwf) as (Hwf' & _ & _ & _ & _ & Hgone & _).
  destruct (wf_coalesced _ Hwf _ _ _ _ Hh Hcb) as [Hreg Hnf].
  simpl in *. revert Hwf' Hgone. unfold fire_timer. rewrite Hh, Hcb.
  set (sd := set_timers (delete h (timers s)) s).
  destruct (coalesced_fire_callback_spec rt cfg env e ty sd)
    as (_ & _ & _ & _ & Hcase).
  set (s' := _coalesced_fire_callback rt cfg env e ty sd) in *.
  intros Hwf' Hgone.
  assert (Hout : (e ∈ fired_event_ids s') \/
                 (emitted s' = emitted s /\ pending_event_timers s' !! e = Some h)).
  { destruct Hcase as [(C1 & C2 & C3 & C4) | (C1 & _)].
    - right. rewrite C2, C3. done.
    - left. rewrite C1. set_solver. }
  split_and!; [done | |].
  - intros h' t' ty' Hl Hc.
    destruct (wf_coalesced _ Hwf' _ _ _ _ Hl Hc) as [Hr Hn].
    destruct Hout as [Hin | [_ Hst]]; [done |]. congruence.
  - intros now ty' p d. unfold _schedule_event_coalesced.
    case_bool_decide as Hf; [done |]. simpl.
    destruct Hout as [Hin | [_ Hst]]; [done |]. by rewrite Hst.
Qed.

(** C1 (as amended). In every reachable state: a schedule call for an event
    id in the fired-event log is a no-op; at most one timer of the
    coalescing scheduler is live per event id; when such a timer fires, the
    id is in the fired log afterwards, or else the goal emitter raised,
    nothing was dispatched and the stale registration stays, and either way
    no timer for the id is live and a later schedule call creates none; and
    over every continuation that stays in the session (no call of
    [_clear_pending_events], which empties the fired log) at most one
    dispatch is added per event id, none for an id already fired. *)
Theorem dispatch_at_most_once_per_session (rt : Runtime) (cfg : Config) (s : State) :
  reachable rt cfg s ->
  (forall now e ty p d,
     e ∈ fired_event_ids s -> _schedule_event_coalesced now e ty p d s = s) /\
  (forall e h1 h2 t1 t2 ty1 ty2,
     timers s !! h1 = Some t1 -> t_cb t1 = CoalescedFire e ty1 ->
     timers s !! h2 = Some t2 -> t_cb t2 = CoalescedFire e ty2 -> h1 = h2) /\
  (forall env h t e ty,
     timers s !! h = Some t -> t_cb t = CoalescedFire e ty ->
     let s' := fire_timer rt cfg env h s in
     ((e ∈ fired_event_ids s') \/
      (emitted s' = emitted s /\ pending_event_timers s' !! e = Some h)) /\
     (forall h' t' ty', timers s' !! h' = Some t' -> t_cb t' <> CoalescedFire e ty') /\
     (forall now ty' p d,
        timers (_schedule_event_coalesced now e ty' p d s') = timers s')) /\
  (forall tr e,
     resets (run rt cfg tr s) = resets s ->
     (dispatches_of e (emitted (run rt cfg tr s)) <= S (dispatches_of e (emitted s)))%nat /\
     (e ∈ fired_event_ids s ->
      dispatches_of e (emitted (run rt cfg tr s)) = dispatches_of e (emitted s))).
Proof.
  intros Hreach. pose proof (reachable_wf rt cfg s Hreach) as Hwf.
  split_and!.
  - intros. by apply schedule_fired_noop.
  - intros e h1 h2 t1 t2 ty1 ty2. by apply coalesced_timer_unique.
  - intros env h t e ty. by apply fire_coalesced_timer.
  - intros tr e Hr.
    destruct (session_dispatches rt cfg tr s e Hwf Hr) as [[H1 | [_ H1]] H2].
    + split; [lia |]. intros Hin. by apply H2.
    + split; [lia |]. intros Hin. by apply H2.
Qed.

Lemma dispatch_at_most_once_per_session_witness :
  let cfg := Sample.cfg 0 in
  let s := run Sample.rt cfg
             [DashboardUpdate (Sample.env 0 None)
                (Sample.dash 7 "LIVE" 1 0 (Sample.goal_by "TOR") (Some (IdInt 55)))]
             initial_state in
  reachable Sample.rt cfg s /\
  forall tr e,
    resets (run Sample.rt cfg tr s) = resets s ->
    (dispatches_of e (emitted (run Sample.rt cfg tr s))
       <= S (dispatches_of e (emitted s)))%nat /\
    (e ∈ fired_event_ids s ->
     dispatches_of e (emitted (run Sample.rt cfg tr s)) = dispatches_of e (emitted s)).
Proof.
  intros cfg s.
  assert (Hr : reachable Sample.rt cfg s) by (eexists; reflexivity).
  split; [exact Hr |].
  exact (proj2 (proj2 (proj2 (dispatch_at_most_once_per_session Sample.rt cfg s Hr)))).
Defined.

(** C1, counterexample.  Event ids are per game: goal 55 of game 7 is
    dispatched, the dashboard moves on to game 8 (a session reset empties the
    fired log), and goal 55 of game 8 is dispatched as well.  Over this
    sequence of observations event id 55 is dispatched twice. *)
Lemma event_id_dispatched_twice_across_games :
  let cfg := Sample.cfg 0 in
  let goal g := Sample.dash g "LIVE" 1 0 (Sample.goal_by "TOR") (Some (IdInt 55)) in
  let tr := [DashboardUpdate (Sample.env 0 None) (goal 7);
             TimerDue (Sample.env 1.3 None) 0%nat;
             DashboardUpdate (Sample.env 100 None) (goal 8);
             TimerDue (Sample.env 101.3 None) 1%nat] in
  well_timed Sample.rt cfg 0 tr initial_state = true /\
  dispatches_of "55" (emitted (run Sample.rt cfg tr initial_state)) = 2%nat.
Proof. vm_compute. split; reflexivity. Qed.

(** ** The win detector *)

(** C5, failing input.  Broadcast delay 30 s; the dashboard reports the
    final 3-2 home win of game 7 at t = 0 and again at t = 10.  Each report
    arms a win timer, because [internal_win_fired_game_id] is only written
    when a timer fires; both timers come due and the win event goes out
    twice for one game. *)
Lemma win_event_fires_twice :
  let cfg := Sample.cfg 30 in
  let final := Sample.dash 7 "FINAL" 3 2 [] None in
  let tr := [DashboardUpdate (Sample.env 0 None) final;
             DashboardUpdate (Sample.env 10 None) final;
             TimerDue (Sample.env 30 None) 0%nat;
             TimerDue (Sample.env 40 None) 1%nat] in
  well_timed Sample.rt cfg 0 tr initial_state = true /\
  length (List.filter win_dispatch (emitted (run Sample.rt cfg tr initial_state))) = 2%nat /\
  internal_win_fired_game_id (run Sample.rt cfg (take 2 tr) initial_state) = None.
Proof. vm_compute. repeat split; reflexivity. Qed.

(** ** The score baseline *)


Lemma cancel_scoreboard_fallback_frame g s :
  let s' := cancel_scoreboard_fallback g s in
  internal_prev_home_score s' = internal_prev_home_score s /\
  internal_prev_away_score s' = internal_prev_away_score s /\
  internal_prev_game_id_for_score_tracking s' = internal_prev_game_id_for_score_tracking s /\
  (forall g' h, pending_sb_goal_timers s' !! g' = Some h ->
                pending_sb_goal_timers s !! g' = Some h).
Proof.
  simpl. unfold cancel_scoreboard_fallback.
  destruct (pending_sb_goal_timers s !! g) as [h |] eqn:Hg; [| done].
  rewrite cancel_if_running_eq. simpl. split_and!; try done.
  intros g' h' Hl. by apply lookup_delete_Some in Hl as [_ Hl].
Qed.

Lemma schedule_event_coalesced_frame now e ty p d s :
  let s' := _schedule_event_coalesced now e ty p d s in
  internal_prev_home_score s' = internal_prev_home_score s /\
  internal_prev_away_score s' = internal_prev_away_score s /\
  internal_prev_game_id_for_score_tracking s' = internal_prev_game_id_for_score_tracking s /\
  pending_sb_goal_timers s' = pending_sb_goal_timers s.
Proof.
  simpl. unfold _schedule_event_coalesced.
  case_bool_decide; [done |]. simpl.
  by destruct (pending_event_timers s !! e).
Qed.

Lemma dashboard_event_frame rt cfg env new sd s :
  let s' := (dashboard_event rt cfg env new sd s).1 in
  internal_prev_home_score s' = internal_prev_home_score s /\
  internal_prev_away_score s' = internal_prev_away_score s /\
  internal_prev_game_id_for_score_tracking s' = internal_prev_game_id_for_score_tracking s /\
  (forall g h, pending_sb_goal_timers s' !! g = Some h ->
               pending_sb_goal_timers s !! g = Some h).
Proof.
  simpl. unfold dashboard_event.
  repeat match goal with
         | |- context [if ?c then _ else _] => destruct c
         end; simpl; try done.
  - set (g := (obs_home_score new, obs_away_score new)).
    destruct (cancel_scoreboard_fallback_frame g s) as (C1 & C2 & C3 & C4).
    destruct (schedule_event_coalesced_frame (e_now env)
                (from_option py_str "" (a_last_event_id new)) "goal"
                (dashboard_goal_payload rt new sd
                   (upper (str_or_empty (dget (a_last_event new) "team"))))
                (coalesced_delay rt cfg env (coalesce_goal_seconds cfg))
                (cancel_scoreboard_fallback g s)) as (D1 & D2 & D3 & D4).
    simpl in *. rewrite D1, D2, D3, D4. by split_and!.
  - destruct (schedule_event_coalesced_frame (e_now env)
                (from_option py_str "" (a_last_event_id new)) "penalty"
                (dashboard_penalty_payload rt new sd
                   (upper (str_or_empty (dget (a_last_event new) "team"))))
                (coalesced_delay rt cfg env (coalesce_penalty_seconds cfg)) s)
      as (D1 & D2 & D3 & D4).
    simpl in *. rewrite D1, D2, D3, D4. by split_and!.
Qed.


Lemma dashboard_fallback_baseline rt cfg env new sd s :
  let s' := dashboard_fallback rt cfg env new sd s in
  internal_prev_home_score s' = internal_prev_home_score s /\
  internal_prev_away_score s' = internal_prev_away_score s /\
  internal_prev_game_id_for_score_tracking s' = internal_prev_game_id_for_score_tracking s /\
  (my_scored sd || opp_scored sd = false -> s' = s).
Proof.
  simpl. unfold dashboard_fallback, schedule_fallback.
  destruct (my_scored sd), (opp_scored sd); simpl; try done;
    by repeat case_match.
Qed.








(** ** Session reset on a new game *)

Lemma dashboard_session_new_game env new s :
  id_true (a_game_id new) = true ->
  a_game_id new <> internal_prev_game_id_for_score_tracking s ->
  was_reset s (dashboard_session env new s) /\
  internal_prev_home_score (dashboard_session env new s) = obs_home_score new /\
  internal_prev_away_score (dashboard_session env new s) = obs_away_score new /\
  internal_prev_game_id_for_score_tracking (dashboard_session env new s) = a_game_id new.
Proof.
  intros Hid Hne. unfold dashboard_session. rewrite Hid.
  rewrite bool_decide_eq_true_2 by done. simpl. split; [| done].
  pose proof (clear_pending_events_reset s) as R.
  revert R. generalize (_clear_pending_events s). intros s1 R.
  by apply (was_reset_frame s s1).
Qed.





(** ** Cross-source suppression *)













(** ** Late binding at fire time *)






(** * Further properties of the engine *)

(** ** What the reset leaves alone *)

(** X1. [_clear_pending_events] cancels registered timers only: a timer
    whose handle is registered neither for an event id nor for a score
    signature (every win timer is such a timer) is still live, unchanged,
    after the reset. *)
Theorem reset_keeps_unregistered_timers (s : State) (h : nat) (t : timer) :
  timers s !! h = Some t ->
  (forall e, pending_event_timers s !! e <> Some h) ->
  (forall g, pending_sb_goal_timers s !! g <> Some h) ->
  timers (_clear_pending_events s) !! h = Some t.
Proof.
  intros Hl He Hg. rewrite clear_pending_events_eq. simpl.
  rewrite !lookup_cancel_all.
  rewrite (bool_decide_eq_false_2 (h ∈ handles (pending_sb_goal_timers s))).
  - rewrite bool_decide_eq_false_2; [done |].
    intros [e Hin]%elem_of_handles. by apply (He e).
  - intros [g Hin]%elem_of_handles. by apply (Hg g).
Qed.

Lemma reset_keeps_unregistered_timers_witness :
  let cfg := Sample.cfg 30 in
  let s := run Sample.rt cfg
             [DashboardUpdate (Sample.env 0 None) (Sample.dash 7 "FINAL" 3 2 [] None)]
             initial_state in
  exists t, timers s !! 0%nat = Some t /\
            timers (_clear_pending_events s) !! 0%nat = Some t.
Proof.
  intros cfg s.
  assert (exists t, timers s !! 0%nat = Some t) as [t Ht]
    by (eexists; vm_compute; reflexivity).
  exists t. split; [exact Ht |].
  assert (He : pending_event_timers s = ∅) by (vm_compute; reflexivity).
  assert (Hg : pending_sb_goal_timers s = ∅) by (vm_compute; reflexivity).
  apply (reset_keeps_unregistered_timers s 0%nat t Ht).
  - intros e. rewrite He, lookup_empty. discriminate.
  - intros g. rewrite Hg, lookup_empty. discriminate.
Defined.

(** ** Puck drop *)



(** ** Delays of the timers the engine arms *)

Lemma py_max_floor (d : pyfloat) :
  py_max (Fin 0.1) d <> NaN /\ f_lt (py_max (Fin 0.1) d) (Fin 0.1) = false.
Proof.
  unfold py_max. destruct d as [q | | |]; simpl; try done.
  destruct (Qlt_bool 0.1 q) eqn:E; simpl.
  - split; [done |]. apply Qlt_bool_true in E.
    unfold Qlt_bool. apply negb_false_iff, Qle_bool_iff. lra.
  - done.
Qed.

(** X3. The fallback and win timers wait the broadcast delay, at least
    0.1 s and at most 120 s.  An identified event with a finite,
    non-negative coalescing window [c] waits a finite time of at least
    0.1 s, at least [c] and at most [c + 120] seconds; whatever the window
    is, the delay is never NaN and never below 0.1 s. *)
Theorem timer_delay_bounds (rt : Runtime) (cfg : Config) (env : Env) (c : Q) :
  (0 <= c)%Q ->
  (exists q, broadcast_only_delay rt cfg env = Fin q /\ (0.1 <= q)%Q /\ (q <= 120)%Q) /\
  (exists q, coalesced_delay rt cfg env (Fin c) = Fin q /\
             (0.1 <= q)%Q /\ (c <= q)%Q /\ (q <= c + 120)%Q) /\
  (forall coalesce,
     coalesced_delay rt cfg env coalesce <> NaN /\
     f_lt (coalesced_delay rt cfg env coalesce) (Fin 0.1) = false).
Proof.
  intros Hc.
  destruct (clamp_in_range
              (default (broadcast_delay_seconds cfg)
                 (entity_number rt cfg (e_delay_state env)))) as (b & Hb & Hb0 & Hb1).
  rewrite <- get_broadcast_delay_eq in Hb.
  split_and!.
  - unfold broadcast_only_delay. rewrite Hb. unfold py_max. simpl.
    destruct (Qlt_bool 0.1 b) eqn:E.
    + exists b. apply Qlt_bool_true in E. split; [done | lra].
    + exists 0.1%Q. split; [done | lra].
  - unfold coalesced_delay. rewrite Hb. unfold py_max. simpl.
    destruct (Qlt_bool 0.1 (c + b)) eqn:E.
    + exists (c + b)%Q. apply Qlt_bool_true in E. split; [done | lra].
    + exists 0.1%Q. apply Qlt_bool_false in E. split; [done | lra].
  - intros coalesce. apply py_max_floor.
Qed.

Lemma timer_delay_bounds_witness :
  let cfg := Sample.cfg 30 in
  let env := Sample.env 0 None in
  (0 <= 1.3)%Q /\
  exists q, coalesced_delay Sample.rt cfg env (Fin 1.3) = Fin q /\
            (0.1 <= q)%Q /\ (1.3 <= q)%Q /\ (q <= 1.3 + 120)%Q.
Proof.
  intros cfg env.
  assert (H : (0 <= 1.3)%Q) by (vm_compute; discriminate).
  split; [exact H |].
  exact (proj1 (proj2 (timer_delay_bounds Sample.rt cfg env 1.3 H))).
Defined.

(** ** The API context *)

(** X4. [_build_nhl_api_context] gives no context exactly when neither the
    selected team nor the sensor's own team is one of the two sides.
    Otherwise the tracked team is the selected team if it plays, else the
    sensor's team; it is the home or the away side, the opponent is the
    other side, [is_home] says which, and a score attribute that [int]
    rejects counts as 0. *)
Theorem api_context_sides (rt : Runtime) (new : ApiObs) (sel : string) :
  let home := upper (ostr_or (b_home_abbr new) "") in
  let away := upper (ostr_or (b_away_abbr new) "") in
  let sensor := upper (ostr_or (b_team_abbrev new) "") in
  match _build_nhl_api_context rt new sel with
  | None => sel <> home /\ sel <> away /\ sensor <> home /\ sensor <> away
  | Some context =>
    c_home_abbr context = home /\ c_away_abbr context = away /\
    c_my_team_abbr context =
      (if String.eqb sel home || String.eqb sel away then sel else sensor) /\
    (c_is_home context = true ->
     c_my_team_abbr context = home /\ c_opp_team_abbr context = away) /\
    (c_is_home context = false ->
     c_my_team_abbr context = away /\ c_my_team_abbr context <> home /\
     c_opp_team_abbr context = home) /\
    (forall z, b_home_score new = VInt z -> c_home_score context = z) /\
    (forall z, b_away_score new = VInt z -> c_away_score context = z) /\
    (py_int rt (b_home_score new) = None -> c_home_score context = 0) /\
    (py_int rt (b_away_score new) = None -> c_away_score context = 0)
  end.
Proof.
  simpl. unfold _build_nhl_api_context.
  set (home := upper (ostr_or (b_home_abbr new) "")).
  set (away := upper (ostr_or (b_away_abbr new) "")).
  set (sensor := upper (ostr_or (b_team_abbrev new) "")).
  destruct (String.eqb sel home) eqn:E1; simpl.
  - apply String.eqb_eq in E1. rewrite E1, String.eqb_refl.
    split_and!; try done; try (intros z Hz; by rewrite Hz); try (intros Hz; by rewrite Hz).
  - apply String.eqb_neq in E1.
    destruct (String.eqb sel away) eqn:E2; simpl.
    + apply String.eqb_eq in E2. subst sel.
      destruct (String.eqb away home) eqn:E3; [apply String.eqb_eq in E3; done |].
      simpl. apply String.eqb_neq in E3.
      split_and!; try done; try (intros z Hz; by rewrite Hz); try (intros Hz; by rewrite Hz).
    + apply String.eqb_neq in E2.
      destruct (String.eqb sensor home) eqn:E3; simpl.
      * apply String.eqb_eq in E3. rewrite E3, String.eqb_refl.
        split_and!; try done; try (intros z Hz; by rewrite Hz); try (intros Hz; by rewrite Hz).
      * apply String.eqb_neq in E3.
        destruct (String.eqb sensor away) eqn:E4; simpl.
        -- apply String.eqb_eq in E4. rewrite E4.
           destruct (String.eqb away home) eqn:E5;
             [apply String.eqb_eq in E5; congruence |].
           simpl. apply String.eqb_neq in E5.
           split_and!; try done; try (intros z Hz; by rewrite Hz); try (intros Hz; by rewrite Hz).
        -- apply String.eqb_neq in E4. done.
Qed.


(** ** A new session never manufactures a goal *)

Lemma dashboard_side_scores env new s sd :
  dashboard_side env new s = Some sd ->
  internal_prev_home_score s = obs_home_score new ->
  internal_prev_away_score s = obs_away_score new ->
  my_scored sd = false /\ opp_scored sd = false.
Proof.
  unfold dashboard_side, my_scored, opp_scored. intros Hsd Hh Ha.
  repeat case_bool_decide; try done; injection Hsd as <-; simpl;
    rewrite ?Hh, ?Ha; split; rewrite Z.gtb_ltb; apply Z.ltb_irrefl.
Qed.

(** X5. A dashboard observation that opens a new session (its game id is
    set and differs from the tracked one) registers no scoreboard fallback,
    whatever score it carries: the score already on the board is taken as
    the baseline, not counted as a goal. *)
Theorem new_session_arms_no_fallback (rt : Runtime) (cfg : Config) (env : Env)
    (new : DashObs) (s : State) :
  a_state new <> "unavailable" ->
  id_true (a_game_id new) = true ->
  a_game_id new <> internal_prev_game_id_for_score_tracking s ->
  pending_sb_goal_timers (dashboard_sensor_change_callback rt cfg env new s) = ∅.
Proof.
  intros Hst Hid Hne.
  destruct (dashboard_session_new_game env new s Hid Hne) as (R & B1 & B2 & _).
  unfold dashboard_sensor_change_callback.
  apply String.eqb_neq in Hst. rewrite Hst.
  set (s1 := dashboard_session env new s) in *.
  pose proof (r_sb_timers _ _ R) as Hsb.
  destruct (dashboard_side env new s1) as [sd |] eqn:Hside; [| done].
  destruct (dashboard_side_scores env new s1 sd Hside B1 B2) as [Hmy Hopp].
  destruct (dashboard_event_frame rt cfg env new sd s1) as (_ & _ & _ & E4).
  destruct (dashboard_event rt cfg env new sd s1) as [s2 scheduled]. simpl in E4.
  destruct (dashboard_fallback_baseline rt cfg env new sd s2) as (_ & _ & _ & F4).
  simpl in F4. rewrite Hmy, Hopp in F4. specialize (F4 eq_refl).
  set (s3 := if scheduled then s2 else dashboard_fallback rt cfg env new sd s2).
  assert (Hs3 : s3 = s2) by (unfold s3; by destruct scheduled).
  rewrite Hs3.
  destruct (dashboard_win_frame rt cfg env new sd s2) as [W1 _].
  destruct (dashboard_baseline_frame new sd (dashboard_win rt cfg env new sd s2))
    as [Bf _].
  rewrite Bf, W1. apply map_empty. intros g.
  destruct (pending_sb_goal_timers s2 !! g) as [h |] eqn:Hg; [| done].
  apply E4 in Hg. rewrite Hsb, lookup_empty in Hg. done.
Qed.

Lemma new_session_arms_no_fallback_witness :
  let cfg := Sample.cfg 0 in
  let new := Sample.dash 7 "LIVE" 3 2 [] None in
  pending_sb_goal_timers
    (dashboard_sensor_change_callback Sample.rt cfg (Sample.env 0 None) new initial_state)
  = ∅.
Proof.
  intros cfg new.
  apply (new_session_arms_no_fallback Sample.rt cfg (Sample.env 0 None) new initial_state).
  - discriminate.
  - vm_compute; reflexivity.
  - discriminate.
Defined.

(** ** Repeated API polls of one goal *)

(** X6. A goal id is processed once: after the goal branch of the API
    callback has run for a goal id, running it again for that id, with
    whatever update, context and clock, changes nothing; in particular it
    neither replaces the draft nor moves the suppression deadline. *)
Theorem api_goal_processed_once (rt : Runtime) (cfg : Config) (env env' : Env)
    (new new' : ApiObs) (context context' : Context) (gid : ident) (s : State) :
  let s1 := api_goal rt cfg env new context gid s in
  (py_str gid ∈ nhl_api_goal_ids_processed s1) /\
  api_goal rt cfg env' new' context' gid s1 = s1.
Proof.
  simpl.
  assert (Hin : py_str gid ∈
                nhl_api_goal_ids_processed (api_goal rt cfg env new context gid s)).
  { unfold api_goal. case_bool_decide as Hp; [done |]. simpl. set_solver. }
  split; [done |].
  unfold api_goal at 1. by rewrite bool_decide_eq_true_2.
Qed.
